(** * UserInfo DApp: a shallow embedding of the profile client

    The development follows [app/page.tsx] (the [UserInfoDApp] component)
    and the [UserInfo] Solidity contract printed in the README.

    - JavaScript strings are lists of UTF-16 code units ([list N]).
    - The React state of the component is the record [State]; an event
      handler reads the state it closed over (the snapshot taken when the
      handler starts) and issues setter calls that are applied in program
      order.
    - The wallet, the chain and the contract are the record [World]; every
      call that leaves the browser is appended to a log of [Call]s.
    - Handlers live in a small state-and-exception monad [M]; [await]
      marks the suspension points, at which React commits the pending
      state updates and re-runs the message effect.
    - Time is a logical clock in milliseconds.  [handle] runs a handler
      to completion at one instant; the clock moves only between
      handlers.  What another event does when it falls between a request
      and its answer is shown on a search, split at its suspension point
      into [searchUser_sent] and [searchUser_resumed].
    - Addresses are compared as the strings the wallet hands out; the
      signer and the contract rows are keyed by that spelling. *)

From Stdlib Require Import ZArith NArith String Ascii List Bool Lia.
From stdpp Require Import base option list gmap.

Local Open Scope N_scope.

(** ** JavaScript strings *)

Abbreviation jsstring := (list N).

Fixpoint lit (s : string) : jsstring :=
  match s with
  | EmptyString => []
  | String a s' => N_of_ascii a :: lit s'
  end.

(** [s.length === 0], which for a string is also [!s]. *)
Definition isEmpty (s : jsstring) : bool :=
  match s with [] => true | _ :: _ => false end.

Definition truthy (s : jsstring) : bool := negb (isEmpty s).

Definition jsstring_eqb (a b : jsstring) : bool := bool_decide (a = b).

(** ECMAScript WhiteSpace and LineTerminator code points, the set that
    [String.prototype.trim] and [parseInt] skip. *)
Definition isWhiteSpace (c : N) : bool :=
  (c =? 0x9) || (c =? 0xA) || (c =? 0xB) || (c =? 0xC) || (c =? 0xD)
  || (c =? 0x20) || (c =? 0xA0) || (c =? 0x1680)
  || ((0x2000 <=? c) && (c <=? 0x200A))
  || (c =? 0x2028) || (c =? 0x2029) || (c =? 0x202F) || (c =? 0x205F)
  || (c =? 0x3000) || (c =? 0xFEFF).

Fixpoint trimStart (s : jsstring) : jsstring :=
  match s with
  | [] => []
  | c :: r => if isWhiteSpace c then trimStart r else s
  end.

Definition trimEnd (s : jsstring) : jsstring := rev (trimStart (rev s)).

Definition trim (s : jsstring) : jsstring := trimEnd (trimStart s).

(** The character class [[\u200B-\u200D\uFEFF]]. *)
Definition isZeroWidth (c : N) : bool :=
  ((0x200B <=? c) && (c <=? 0x200D)) || (c =? 0xFEFF).

(** [s.replace(/[\u200B-\u200D\uFEFF]/g, "")] *)
Definition removeZeroWidth (s : jsstring) : jsstring :=
  List.filter (fun c => negb (isZeroWidth c)) s.

(** [field.trim().replace(/[\u200B-\u200D\uFEFF]/g, "")] *)
Definition sanitize (s : jsstring) : jsstring := removeZeroWidth (trim s).

(** [s.includes(needle)] *)
Fixpoint startsWith (needle s : jsstring) : bool :=
  match needle, s with
  | [], _ => true
  | _ :: _, [] => false
  | a :: needle', b :: s' => (a =? b) && startsWith needle' s'
  end.

Fixpoint includes (s needle : jsstring) : bool :=
  startsWith needle s ||
  match s with
  | [] => false
  | _ :: s' => includes s' needle
  end.

(** ** Numbers *)

(** Value of a code unit as a digit ([0-9], [a-z], [A-Z]). *)
Definition digitValue (c : N) : option N :=
  if (0x30 <=? c) && (c <=? 0x39) then Some (c - 0x30)
  else if (0x61 <=? c) && (c <=? 0x7A) then Some (c - 0x61 + 10)
  else if (0x41 <=? c) && (c <=? 0x5A) then Some (c - 0x41 + 10)
  else None.

Definition isRadixDigit (R : N) (c : N) : bool :=
  match digitValue c with
  | Some d => d <? R
  | None => false
  end.

Fixpoint takeDigits (R : N) (s : jsstring) : jsstring :=
  match s with
  | [] => []
  | c :: r => if isRadixDigit R c then c :: takeDigits R r else []
  end.

Definition digitsValue (R : N) (ds : jsstring) : N :=
  fold_left (fun acc c => acc * R + default 0 (digitValue c)) ds 0.

(** [Number.parseInt(s)] with no radix argument: skip leading white
    space, read a sign, switch to radix 16 after [0x]/[0X], and read the
    longest run of digits; [None] is [NaN].  The result is the
    mathematical integer that was read.  (The Number returned by the
    engine is that integer rounded to a double, which is the same value
    below 2^53 and is never on the other side of 0 or 150.) *)
Definition parseInt (s : jsstring) : option Z :=
  let S0 := trimStart s in
  let '(sign, S1) :=
    match S0 with
    | 0x2D :: r => ((-1)%Z, r)
    | 0x2B :: r => (1%Z, r)
    | _ => (1%Z, S0)
    end in
  let '(R, S2) :=
    match S1 with
    | 0x30 :: 0x78 :: r => (16, r)
    | 0x30 :: 0x58 :: r => (16, r)
    | _ => (10, S1)
    end in
  match takeDigits R S2 with
  | [] => None
  | ds => Some (sign * Z.of_N (digitsValue R ds))%Z
  end.

(** [Number(b)] for a bigint [b]: round to 53 significant bits, ties to
    even.  A [uint256] never reaches the overflow threshold. *)
Definition Number_of_bigint (b : Z) : Z :=
  let n := Z.abs b in
  if (n <? 2 ^ 53)%Z then b
  else
    let e := (Z.log2 n - 52)%Z in
    let q := (n / 2 ^ e)%Z in
    let r := (n mod 2 ^ e)%Z in
    let half := (2 ^ (e - 1))%Z in
    let q' := if (half <? r)%Z || ((r =? half)%Z && Z.odd q)
              then (q + 1)%Z else q in
    (Z.sgn b * (q' * 2 ^ e))%Z.

(** ** Data model *)

(** [interface UserData] *)
Record UserData := mkUserData {
  ud_name : jsstring;
  ud_age : Z;
  ud_profession : jsstring;
  ud_bio : jsstring }.

(** The object held by [formData]; all four inputs are strings. *)
Record FormData := mkFormData {
  fd_name : jsstring;
  fd_age : jsstring;
  fd_profession : jsstring;
  fd_bio : jsstring }.

Definition emptyForm : FormData := mkFormData [] [] [] [].

(** Handles handed out by ethers. A signer is known by the address it
    signs for, a contract by its target and its runner. *)
Inductive BrowserProvider := mkBrowserProvider.

Record JsonRpcSigner := mkSigner { signer_address : jsstring }.

Record Contract := mkContract {
  contract_target : jsstring;
  contract_runner : JsonRpcSigner }.

Definition CONTRACT_ADDRESS : jsstring :=
  lit "0x8d5544a040e682A0BB296e68F70472cE059344A7".

(** What a rejected promise carries: the fields of [err] the handlers
    look at, each possibly undefined. *)
Record JsError := mkJsError {
  err_code : option jsstring;
  err_message : option jsstring;
  err_reason : option jsstring }.

(** The [useState] cells of [UserInfoDApp]. *)
Record State := mkState {
  account : jsstring;
  contract : option Contract;
  provider : option BrowserProvider;
  signer : option JsonRpcSigner;
  loading : bool;
  error : jsstring;
  success : jsstring;
  formData : FormData;
  currentUserData : option UserData;
  searchAddress : jsstring;
  searchedUserData : option UserData }.

Definition initialState : State :=
  mkState [] None None None false [] [] emptyForm None [] None.

Definition with_account v (st : State) : State :=
  mkState v (contract st) (provider st) (signer st) (loading st) (error st)
    (success st) (formData st) (currentUserData st) (searchAddress st)
    (searchedUserData st).
Definition with_contract v (st : State) : State :=
  mkState (account st) v (provider st) (signer st) (loading st) (error st)
    (success st) (formData st) (currentUserData st) (searchAddress st)
    (searchedUserData st).
Definition with_provider v (st : State) : State :=
  mkState (account st) (contract st) v (signer st) (loading st) (error st)
    (success st) (formData st) (currentUserData st) (searchAddress st)
    (searchedUserData st).
Definition with_signer v (st : State) : State :=
  mkState (account st) (contract st) (provider st) v (loading st) (error st)
    (success st) (formData st) (currentUserData st) (searchAddress st)
    (searchedUserData st).
Definition with_loading v (st : State) : State :=
  mkState (account st) (contract st) (provider st) (signer st) v (error st)
    (success st) (formData st) (currentUserData st) (searchAddress st)
    (searchedUserData st).
Definition with_error v (st : State) : State :=
  mkState (account st) (contract st) (provider st) (signer st) (loading st) v
    (success st) (formData st) (currentUserData st) (searchAddress st)
    (searchedUserData st).
Definition with_success v (st : State) : State :=
  mkState (account st) (contract st) (provider st) (signer st) (loading st)
    (error st) v (formData st) (currentUserData st) (searchAddress st)
    (searchedUserData st).
Definition with_formData v (st : State) : State :=
  mkState (account st) (contract st) (provider st) (signer st) (loading st)
    (error st) (success st) v (currentUserData st) (searchAddress st)
    (searchedUserData st).
Definition with_currentUserData v (st : State) : State :=
  mkState (account st) (contract st) (provider st) (signer st) (loading st)
    (error st) (success st) (formData st) v (searchAddress st)
    (searchedUserData st).
Definition with_searchAddress v (st : State) : State :=
  mkState (account st) (contract st) (provider st) (signer st) (loading st)
    (error st) (success st) (formData st) (currentUserData st) v
    (searchedUserData st).
Definition with_searchedUserData v (st : State) : State :=
  mkState (account st) (contract st) (provider st) (signer st) (loading st)
    (error st) (success st) (formData st) (currentUserData st)
    (searchAddress st) v.

(** ** The world outside the browser tab *)

(** One row of the contract's [mapping (address => User)]. *)
Record User := mkUser {
  u_name : jsstring;
  u_age : Z;
  u_profession : jsstring;
  u_bio : jsstring }.

(** The zero value a Solidity mapping holds at a key never written. *)
Definition zeroUser : User := mkUser [] 0%Z [] [].

(** How the next [addUserInfo] transaction ends: it is mined, or the
    call that sends it rejects, or [tx.wait()] rejects; in the last case
    the transaction may or may not have run on chain. *)
Inductive TxFate :=
| TxMined
| TxSendRejects (err : JsError)
| TxWaitRejects (err : JsError) (ran : bool).

Record World := mkWorld {
  (** [typeof window.ethereum !== "undefined"] *)
  ethereum : bool;
  (** answer to [eth_requestAccounts]: a rejection, or the accounts the
      user exposed, never an empty array *)
  wallet_accounts : JsError + (jsstring * list jsstring);
  (** whether [provider.getSigner()] rejects *)
  signer_fault : option JsError;
  (** storage of the deployed [UserInfo] contract *)
  users : gmap jsstring User;
  tx_fate : TxFate;
  (** whether the next [getUserInfo] call rejects *)
  read_fault : option JsError }.

Definition with_users (m : gmap jsstring User) (w : World) : World :=
  mkWorld (ethereum w) (wallet_accounts w) (signer_fault w) m (tx_fate w)
    (read_fault w).

(** Solidity: [users[msg.sender] = User(_name, _age, _profession, _bio)] *)
Definition sol_addUserInfo (sender : jsstring) (u : User)
    (m : gmap jsstring User) : gmap jsstring User :=
  <[sender := u]> m.

(** Solidity: [User memory u = users[userAddress]; return (u.name, ...)] *)
Definition sol_getUserInfo (userAddress : jsstring)
    (m : gmap jsstring User) : User :=
  default zeroUser (m !! userAddress).

(** Every request that leaves the page. *)
Inductive Call :=
| Call_eth_requestAccounts
| Call_getSigner
| Call_addUserInfo (sender name : jsstring) (age : Z)
    (profession bio : jsstring)
| Call_wait
| Call_getUserInfo (userAddress : jsstring).

(** ** The running page *)

(** What the scheduler holds for the message effect. *)
Record Timers := mkTimers {
  (** logical time, in milliseconds *)
  clock : N;
  (** due time of the pending [setTimeout] of the message effect *)
  timer : option N;
  (** [[error, success]] as of the last run of the message effect *)
  deps : jsstring * jsstring }.

Record Sys := mkSys {
  ui : State;
  world : World;
  calls : list Call;
  timers : Timers }.

Definition initialSys (w : World) : Sys :=
  mkSys initialState w [] (mkTimers 0 None ([], [])).

Definition with_ui (f : State -> State) (s : Sys) : Sys :=
  mkSys (f (ui s)) (world s) (calls s) (timers s).

Definition with_world (f : World -> World) (s : Sys) : Sys :=
  mkSys (ui s) (f (world s)) (calls s) (timers s).

Definition log (c : Call) (s : Sys) : Sys :=
  mkSys (ui s) (world s) (calls s ++ [c]) (timers s).

Definition MESSAGE_DELAY : N := 5000.

(** The effect [useEffect(() => { if (error || success) { timer =
    setTimeout(clear, 5000); return () => clearTimeout(timer) } },
    [error, success])], run when React commits: nothing happens while
    both dependencies are what they were; otherwise the cleanup of the
    previous run drops its timer and the body may start a new one. *)
Definition messageEffect (st : State) (t : Timers) : Timers :=
  if bool_decide (deps t = (error st, success st)) then t
  else
    mkTimers (clock t)
      (if truthy (error st) || truthy (success st)
       then Some (clock t + MESSAGE_DELAY) else None)
      (error st, success st).

Definition commit (s : Sys) : Sys :=
  mkSys (ui s) (world s) (calls s) (messageEffect (ui s) (timers s)).

(** The timeout callback, [setError(""); setSuccess("")], and the commit
    that follows it. *)
Definition fire (s : Sys) : Sys :=
  commit (mkSys (with_success [] (with_error [] (ui s))) (world s) (calls s)
            (mkTimers (clock (timers s)) None (deps (timers s)))).

(** Time passes; a timer that is due fires. *)
Definition elapse (dt : N) (s : Sys) : Sys :=
  let t := timers s in
  let s' := mkSys (ui s) (world s) (calls s)
              (mkTimers (clock t + dt) (timer t) (deps t)) in
  match timer t with
  | Some due => if due <=? clock t + dt then fire s' else s'
  | None => s'
  end.

(** ** The handler monad: state, and a thrown [JsError] or a value *)

Definition M (A : Type) : Type := Sys -> Sys * (JsError + A).

Definition ret {A} (a : A) : M A := fun s => (s, inr a).

Definition bind {A B} (m : M A) (k : A -> M B) : M B :=
  fun s =>
    match m s with
    | (s', inr a) => k a s'
    | (s', inl e) => (s', inl e)
    end.

Definition throw {A} (e : JsError) : M A := fun s => (s, inl e).

Notation "x <- m ;; k" := (bind m (fun x => k))
  (at level 90, m at level 80, right associativity).
Notation "m ;;; k" := (bind m (fun _ => k))
  (at level 90, right associativity).

(** [try { body } catch (err) { handler err }] *)
Definition try_catch {A} (body : M A) (handler : JsError -> M A) : M A :=
  fun s =>
    match body s with
    | (s', inr a) => (s', inr a)
    | (s', inl e) => handler e s'
    end.

(** [try { body } catch (err) { handler err } finally { fin }] *)
Definition try_catch_finally (body : M unit) (handler : JsError -> M unit)
    (fin : M unit) : M unit :=
  fun s =>
    match try_catch body handler s with
    | (s', inr _) => fin s'
    | (s', inl e) =>
        match fin s' with
        | (s'', inr _) => (s'', inl e)
        | (s'', inl e') => (s'', inl e')
        end
    end.

(** A suspension point: React commits what was set so far, then the
    awaited request is answered. *)
Definition await {A} (m : M A) : M A := fun s => m (commit s).

Definition modify (f : State -> State) : M unit :=
  fun s => (with_ui f s, inr tt).

Definition setAccount v := modify (with_account v).
Definition setContract v := modify (with_contract v).
Definition setProvider v := modify (with_provider v).
Definition setSigner v := modify (with_signer v).
Definition setLoading v := modify (with_loading v).
Definition setError v := modify (with_error v).
Definition setSuccess v := modify (with_success v).
Definition setFormData v := modify (with_formData v).
Definition setCurrentUserData v := modify (with_currentUserData v).
Definition setSearchAddress v := modify (with_searchAddress v).
Definition setSearchedUserData v := modify (with_searchedUserData v).

(** *** Requests *)

(** [provider.send("eth_requestAccounts", [])] *)
Definition provider_send_eth_requestAccounts
  : M (jsstring * list jsstring) :=
  fun s =>
    let s' := log Call_eth_requestAccounts s in
    match wallet_accounts (world s) with
    | inl e => (s', inl e)
    | inr accounts => (s', inr accounts)
    end.

(** [provider.getSigner()]: the signer of the first exposed account. *)
Definition provider_getSigner : M JsonRpcSigner :=
  fun s =>
    let s' := log Call_getSigner s in
    match signer_fault (world s), wallet_accounts (world s) with
    | Some e, _ => (s', inl e)
    | None, inl e => (s', inl e)
    | None, inr (a, _) => (s', inr (mkSigner a))
    end.

(** [contract.addUserInfo(name, age, profession, bio)]: resolves to the
    sent transaction, or rejects. *)
Definition contract_addUserInfo (c : Contract) (name : jsstring) (age : Z)
    (profession bio : jsstring) : M (jsstring * User) :=
  fun s =>
    let sender := signer_address (contract_runner c) in
    let s' := log (Call_addUserInfo sender name age profession bio) s in
    match tx_fate (world s) with
    | TxSendRejects e => (s', inl e)
    | _ => (s', inr (sender, mkUser name age profession bio))
    end.

(** [tx.wait()]: resolves once the transaction is mined, at which point
    the contract has run. *)
Definition tx_wait (tx : jsstring * User) : M unit :=
  fun s =>
    let s' := log Call_wait s in
    let mined :=
      with_world (fun w => with_users
                    (sol_addUserInfo (fst tx) (snd tx) (users w)) w) s' in
    match tx_fate (world s) with
    | TxWaitRejects e ran => (if ran then mined else s', inl e)
    | _ => (mined, inr tt)
    end.

(** [typeof window.ethereum !== "undefined"] *)
Definition window_ethereum_defined : M bool :=
  fun s => (s, inr (ethereum (world s))).

(** [contract.getUserInfo(userAddress)] *)
Definition contract_getUserInfo (c : Contract) (userAddress : jsstring)
  : M User :=
  fun s =>
    let s' := log (Call_getUserInfo userAddress) s in
    match read_fault (world s) with
    | Some e => (s', inl e)
    | None => (s', inr (sol_getUserInfo userAddress (users (world s))))
    end.

(** [ethers.isAddress], the one library predicate the page relies on. *)
Class Ethers := { isAddress : jsstring -> bool }.

(** ** The handlers of [UserInfoDApp] *)

(** [a || b] on a possibly undefined string. *)
Definition js_or (a : option jsstring) (b : jsstring) : jsstring :=
  match a with
  | Some (c :: r) => c :: r
  | _ => b
  end.

(** [err.code === k] *)
Definition code_is (err : JsError) (k : string) : bool :=
  bool_decide (err_code err = Some (lit k)).

(** [err.message?.includes(k)] *)
Definition message_includes (err : JsError) (k : string) : bool :=
  match err_message err with
  | Some m => includes m (lit k)
  | None => false
  end.

(** [`${err.message}`] *)
Definition message_text (err : JsError) : jsstring :=
  default (lit "undefined") (err_message err).

(** [userData[0] && userData[0].length > 0], then the object literal. *)
Definition toUserData (userData : User) : option UserData :=
  if truthy (u_name userData) && (0 <? N.of_nat (length (u_name userData)))
  then Some (mkUserData (u_name userData)
               (Number_of_bigint (u_age userData))
               (u_profession userData) (u_bio userData))
  else None.

Section Handlers.
Context `{Ethers}.

(** [st] is the state the running closure captured. *)
Definition loadUserDataForCurrentUser (st : State) (userAddress : jsstring)
    (contractInstance : option Contract) : M unit :=
  try_catch
    (match (match contractInstance with
            | Some c => Some c
            | None => contract st
            end) with
     | None => ret tt
     | Some contractToUse =>
         userData <- await (contract_getUserInfo contractToUse userAddress) ;;
         match toUserData userData with
         | Some userInfo => setCurrentUserData (Some userInfo)
         | None => setCurrentUserData None
         end
     end)
    (fun _ => setCurrentUserData None).

Definition loadUserData (st : State) (address : jsstring) : M unit :=
  try_catch
    (match contract st with
     | None => ret tt
     | Some contract_ =>
         if negb (isAddress address) then ret tt
         else
           userData <- await (contract_getUserInfo contract_ address) ;;
           match toUserData userData with
           | Some userInfo => setSearchedUserData (Some userInfo)
           | None => setSearchedUserData None
           end
     end)
    (fun _ => setSearchedUserData None).

Definition connectWallet (st : State) : M unit :=
  try_catch
    (present <- window_ethereum_defined ;;
     if present then
       let provider_ := mkBrowserProvider in
       accounts <- await provider_send_eth_requestAccounts ;;
       signer_ <- await provider_getSigner ;;
       let contract_ := mkContract CONTRACT_ADDRESS signer_ in
       setProvider (Some provider_) ;;;
       setSigner (Some signer_) ;;;
       setContract (Some contract_) ;;;
       setAccount (fst accounts) ;;;
       setError [] ;;;
       setSuccess (lit "Wallet connected successfully!") ;;;
       loadUserDataForCurrentUser st (fst accounts) (Some contract_)
     else
       setError (lit "Please install MetaMask to use this application"))
    (fun err =>
       setError (lit "Failed to connect wallet: " ++ message_text err)).

Definition disconnectWallet : M unit :=
  setProvider None ;;;
  setSigner None ;;;
  setContract None ;;;
  setAccount [] ;;;
  setCurrentUserData None ;;;
  setSearchedUserData None ;;;
  setSearchAddress [] ;;;
  setFormData emptyForm ;;;
  setError [] ;;;
  setSuccess (lit "Wallet disconnected successfully!").

(** The [catch] block of [addUserInfo]. *)
Definition addUserInfo_catch (err : JsError) : M unit :=
  if code_is err "INVALID_ARGUMENT" then
    setError
      (lit "Invalid input data. Please check your entries and try again.")
  else if code_is err "UNPREDICTABLE_GAS_LIMIT" then
    setError
      (lit "Transaction failed. Please check your inputs and try again.")
  else if message_includes err "user rejected" then
    setError (lit "Transaction was rejected by user")
  else if message_includes err "insufficient funds" then
    setError (lit "Insufficient funds to complete the transaction")
  else
    setError (lit "Failed to add user info: " ++
              js_or (err_reason err)
                (js_or (err_message err) (lit "Unknown error"))).

Definition addUserInfo (st : State) : M unit :=
  match contract st, signer st with
  | Some contract_, Some _ =>
      let sanitizedName := sanitize (fd_name (formData st)) in
      let sanitizedProfession := sanitize (fd_profession (formData st)) in
      let sanitizedBio := sanitize (fd_bio (formData st)) in
      let age := parseInt (fd_age (formData st)) in
      if isEmpty sanitizedName then
        setError (lit "Name cannot be empty")
      else if isEmpty sanitizedProfession then
        setError (lit "Profession cannot be empty")
      else if isEmpty sanitizedBio then
        setError (lit "Bio cannot be empty")
      else
        match age with
        | None => setError (lit "Please enter a valid age between 1 and 150")
        | Some age =>
            if (age <=? 0)%Z || (150 <? age)%Z then
              setError (lit "Please enter a valid age between 1 and 150")
            else
              try_catch_finally
                (setLoading true ;;;
                 setError [] ;;;
                 tx <- await (contract_addUserInfo contract_ sanitizedName
                                age sanitizedProfession sanitizedBio) ;;
                 await (tx_wait tx) ;;;
                 setSuccess (lit "User information added successfully!") ;;;
                 loadUserDataForCurrentUser st (account st) None ;;;
                 setFormData emptyForm)
                addUserInfo_catch
                (setLoading false)
        end
  | _, _ => setError (lit "Please connect your wallet first")
  end.

Definition searchUser (st : State) : M unit :=
  if negb (bool_decide (is_Some (contract st))) || isEmpty (searchAddress st)
  then ret tt
  else if negb (isAddress (searchAddress st)) then
    setError (lit "Please enter a valid Ethereum address")
  else
    try_catch_finally
      (setLoading true ;;;
       setError [] ;;;
       setSearchedUserData None ;;;
       loadUserData st (searchAddress st))
      (fun err => setError (lit "Failed to search user: " ++ message_text err))
      (setLoading false).

(** ** Events *)

Inductive Event :=
| Click_connectWallet
| Click_disconnectWallet
| Submit_addUserInfo
| Click_searchUser
| Change_name (v : jsstring)
| Change_age (v : jsstring)
| Change_profession (v : jsstring)
| Change_bio (v : jsstring)
| Change_searchAddress (v : jsstring)
| Elapse (dt : N)
| Environment (w : World).

(** Run a handler on the state it closed over, to its end, and let
    React commit. *)
Definition handle (h : State -> M unit) (s : Sys) : Sys :=
  commit (fst (h (ui s) s)).

Definition step (e : Event) (s : Sys) : Sys :=
  match e with
  | Click_connectWallet => handle connectWallet s
  | Click_disconnectWallet => handle (fun _ => disconnectWallet) s
  | Submit_addUserInfo => handle addUserInfo s
  | Click_searchUser => handle searchUser s
  | Change_name v =>
      handle (fun st =>
        let f := formData st in
        setFormData (mkFormData v (fd_age f) (fd_profession f) (fd_bio f))) s
  | Change_age v =>
      handle (fun st =>
        let f := formData st in
        setFormData (mkFormData (fd_name f) v (fd_profession f) (fd_bio f))) s
  | Change_profession v =>
      handle (fun st =>
        let f := formData st in
        setFormData (mkFormData (fd_name f) (fd_age f) v (fd_bio f))) s
  | Change_bio v =>
      handle (fun st =>
        let f := formData st in
        setFormData (mkFormData (fd_name f) (fd_age f) (fd_profession f) v)) s
  | Change_searchAddress v => handle (fun _ => setSearchAddress v) s
  | Elapse dt => elapse dt s
  | Environment w => with_world (fun _ => w) s
  end.

Definition run (es : list Event) (s : Sys) : Sys :=
  fold_left (fun acc e => step e acc) es s.

Definition reachable (s : Sys) : Prop :=
  exists w es, s = run es (initialSys w).
End Handlers.

(** An instance of [Ethers] for closed examples: the shape test that
    opens ethers' [getAddress], an optional [0x] and forty hex digits.
    (Checksums of mixed-case addresses and ICAP addresses are left out;
    no statement below depends on them.) *)
Definition isHex40 (s : jsstring) : bool :=
  (length s =? 40)%nat && forallb (isRadixDigit 16) s.

Definition isAddressShape (s : jsstring) : bool :=
  match s with
  | 0x30 :: 0x78 :: r => isHex40 r
  | _ => isHex40 s
  end.

Definition shapeEthers : Ethers := {| isAddress := isAddressShape |}.

(** ** Spec-side vocabulary *)

(** The validation rule as the specification words it: name, profession
    and bio non-empty after sanitation, and the age reads as an integer
    between 1 and 150. *)
Definition validForm (f : FormData) : bool :=
  negb (isEmpty (sanitize (fd_name f)))
  && negb (isEmpty (sanitize (fd_profession f)))
  && negb (isEmpty (sanitize (fd_bio f)))
  && match parseInt (fd_age f) with
     | Some n => (1 <=? n)%Z && (n <=? 150)%Z
     | None => false
     end.


(** The text the [catch] block of [addUserInfo] hands to [setError]. *)
Definition faultMessage (err : JsError) : jsstring :=
  if code_is err "INVALID_ARGUMENT" then
    lit "Invalid input data. Please check your entries and try again."
  else if code_is err "UNPREDICTABLE_GAS_LIMIT" then
    lit "Transaction failed. Please check your inputs and try again."
  else if message_includes err "user rejected" then
    lit "Transaction was rejected by user"
  else if message_includes err "insufficient funds" then
    lit "Insufficient funds to complete the transaction"
  else
    lit "Failed to add user info: " ++
    js_or (err_reason err) (js_or (err_message err) (lit "Unknown error")).

(** What a profile viewer shows for a record read from the contract. *)
Definition profileView (r : User) : option UserData :=
  if isEmpty (u_name r) then None
  else Some (mkUserData (u_name r) (Number_of_bigint (u_age r))
               (u_profession r) (u_bio r)).


(** The same world with a contract that holds no profile and answers
    every read. *)
Definition blankRegistry (w : World) : World :=
  mkWorld (ethereum w) (wallet_accounts w) (signer_fault w) ∅ (tx_fate w) None.

(** Both message slots written at once. *)
Definition with_messages (e su : jsstring) (st : State) : State :=
  with_success su (with_error e st).

(** ** Sample sessions *)

Definition aliceAccount : jsstring :=
  lit "0x52908400098527886e0f7030069857d2e4169ee7".

Definition aliceWorld : World :=
  mkWorld true (inr (aliceAccount, [])) None ∅ TxMined None.

Definition aliceContract : Contract :=
  mkContract CONTRACT_ADDRESS (mkSigner aliceAccount).

(** Alice has connected her wallet. *)
Definition aliceConnected : Sys :=
  @run shapeEthers [Click_connectWallet] (initialSys aliceWorld).

(** Alice has typed a profile; the name carries a space in front and a
    zero-width space behind. *)
Definition aliceTyped : Sys :=
  @run shapeEthers
    [ Change_name (0x20 :: lit "Ada" ++ [0x200B]);
      Change_age (lit "36");
      Change_profession (lit "Analyst");
      Change_bio (lit "Wrote the first program") ]
    aliceConnected.


(** A wallet that turns every request down. *)
Definition userRejected : JsError :=
  mkJsError (Some (lit "ACTION_REJECTED"))
    (Some (lit "user rejected action")) None.


(** A browser without a wallet extension. *)
Definition bareWorld : World :=
  mkWorld false (inl userRejected) None ∅ TxMined None.

(** A node that refuses reads. *)
Definition callException : JsError :=
  mkJsError (Some (lit "CALL_EXCEPTION")) (Some (lit "missing revert data"))
    None.

(** ** What the page renders *)

(** [!account ? <connect card> : <panels>]: the form, the own profile
    and the search card are rendered only for a truthy [account]. *)
Definition rendersPanels (st : State) : bool := truthy (account st).

(** The Search button: rendered with the panels,
    [disabled={loading || !searchAddress}]. *)
Definition searchClickable (st : State) : bool :=
  rendersPanels st && negb (loading st || negb (truthy (searchAddress st))).

(** The notice "No profile found for this address":
    [searchAddress && searchedUserData === null && !loading], inside the
    search card. *)
Definition rendersNoProfileNotice (st : State) : bool :=
  rendersPanels st
  && (truthy (searchAddress st)
      && match searchedUserData st with None => true | Some _ => false end
      && negb (loading st)).

(** ** Invariants of the running page *)

(** A page is connected as a whole or not at all. *)
Definition sessionInv (st : State) : Prop :=
  match contract st with
  | Some c =>
      contract_target c = CONTRACT_ADDRESS
      /\ signer st = Some (contract_runner c)
      /\ provider st = Some mkBrowserProvider
  | None =>
      signer st = None /\ provider st = None /\ account st = []
      /\ currentUserData st = None /\ searchedUserData st = None
  end.

(** The pending timeout matches the texts the effect last saw: one is
    pending, due within the delay, exactly when a text was live. *)
Definition timerSound (t : Timers) : Prop :=
  if truthy (fst (deps t)) || truthy (snd (deps t))
  then exists due, timer t = Some due
                   /\ clock t < due /\ due <= clock t + MESSAGE_DELAY
  else timer t = None.

(** A profile on display has a name. *)
Definition profilesNamed (st : State) : Prop :=
  (forall d, currentUserData st = Some d -> ud_name d <> [])
  /\ (forall d, searchedUserData st = Some d -> ud_name d <> []).

(** A contract write that went through the form's validation. *)
Definition validCall (c : Call) : Prop :=
  match c with
  | Call_addUserInfo _ name age profession bio =>
      (1 <= age <= 150)%Z
      /\ name <> [] /\ profession <> [] /\ bio <> []
      /\ Forall (fun u => isZeroWidth u = false) (name ++ profession ++ bio)
  | _ => True
  end.

Definition pageInv (s : Sys) : Prop :=
  sessionInv (ui s)
  /\ loading (ui s) = false
  /\ deps (timers s) = (error (ui s), success (ui s))
  /\ timerSound (timers s)
  /\ profilesNamed (ui s)
  /\ Forall validCall (calls s).

(** ** What sanitation and classification mean *)

(** [core] is [field] without the white space at its two ends. *)
Definition trimmedOf (field core : jsstring) : Prop :=
  exists ws1 ws2,
    field = ws1 ++ core ++ ws2
    /\ Forall (fun c => isWhiteSpace c = true) ws1
    /\ Forall (fun c => isWhiteSpace c = true) ws2
    /\ (forall a m, core = a :: m -> isWhiteSpace a = false)
    /\ (forall m b, core = m ++ [b] -> isWhiteSpace b = false).

(** The four code units the page deletes: U+200B, U+200C, U+200D and
    U+FEFF. *)
Definition zeroWidthClass (c : N) : Prop :=
  c = 0x200B \/ c = 0x200C \/ c = 0x200D \/ c = 0xFEFF.

(** [v] is [core] with exactly the code units of the class deleted. *)
Inductive strippedOf : jsstring -> jsstring -> Prop :=
| stripped_nil : strippedOf [] []
| stripped_drop (c : N) (l l' : jsstring) :
    zeroWidthClass c -> strippedOf l l' -> strippedOf (c :: l) l'
| stripped_keep (c : N) (l l' : jsstring) :
    ~ zeroWidthClass c -> strippedOf l l' -> strippedOf (c :: l) (c :: l').

(** Trimmed first, stripped second. *)
Definition sanitizedAs (field v : jsstring) : Prop :=
  exists core, trimmedOf field core /\ strippedOf core v.

(** [needle] occurs in [m]. *)
Definition hasSubstring (m needle : jsstring) : Prop :=
  exists pre post, m = pre ++ needle ++ post.

(** The fault carries a message in which [k] occurs. *)
Definition messageHas (err : JsError) (k : string) : Prop :=
  exists m, err_message err = Some m /\ hasSubstring m (lit k).

(** Alice's form with a name that starts with a zero-width space and a
    space and ends with a word joiner (U+2060). *)
Definition aliceShielded : Sys :=
  @step shapeEthers
    (Change_name ([0x200B; 0x20] ++ lit "Ada" ++ [0x2060])) aliceTyped.

(** ** A search across its suspension point *)

(** [searchUser], past its guards, up to the point where [loadUserData]
    waits for the read: the three setters, the request, the commit. *)
Definition searchUser_sent (st : State) : M unit :=
  setLoading true ;;;
  setError [] ;;;
  setSearchedUserData None ;;;
  (fun s => (commit (log (Call_getUserInfo (searchAddress st)) s), inr tt)).

(** The rest of [loadUserData] and [searchUser], run when the read is
    answered or refused, with the setters of the closure. *)
Definition searchUser_resumed (reply : JsError + User) : M unit :=
  match reply with
  | inr userData =>
      match toUserData userData with
      | Some userInfo => setSearchedUserData (Some userInfo)
      | None => setSearchedUserData None
      end
  | inl _ => setSearchedUserData None
  end ;;;
  setLoading false.

(** What the node answers to a read of [address]. *)
Definition readReply (w : World) (address : jsstring) : JsError + User :=
  match read_fault w with
  | Some e => inl e
  | None => inr (sol_getUserInfo address (users w))
  end.




(** * Facts about the model *)

Arguments lit : simpl never.
Arguments sanitize : simpl never.
Arguments parseInt : simpl never.
Arguments messageEffect : simpl never.
Arguments Number_of_bigint : simpl never.
Arguments sol_addUserInfo : simpl never.
Arguments sol_getUserInfo : simpl never.
Arguments faultMessage : simpl never.

(** Unfold the monad and the requests, and compute. *)
Ltac mstep :=
  unfold handle, try_catch_finally, try_catch, bind, ret, await, modify,
    setAccount, setContract, setProvider, setSigner, setLoading, setError,
    setSuccess, setFormData, setCurrentUserData, setSearchAddress,
    setSearchedUserData, provider_send_eth_requestAccounts,
    provider_getSigner, contract_addUserInfo, tx_wait, contract_getUserInfo,
    window_ethereum_defined, loadUserDataForCurrentUser, log, with_world,
    with_ui, commit;
  cbn.

(** Split a system into its cells, so that hypotheses about the cells
    become syntactic. *)
Ltac open_sys s :=
  let st := fresh "st" in
  let w := fresh "w" in
  destruct s as [st w ? ?]; destruct st; destruct w; cbn in *.

(** ** Strings and numbers *)

Example sanitize_ex1 :
  sanitize (0x20 :: lit "Ada" ++ [0x200B; 0x20]) = lit "Ada".
Proof. reflexivity. Qed.

Example parseInt_ex1 : parseInt (lit " 42") = Some 42%Z.
Proof. reflexivity. Qed.

Example parseInt_ex2 : parseInt (lit "abc") = None.
Proof. reflexivity. Qed.

Example parseInt_ex3 : parseInt (lit "12.7") = Some 12%Z.
Proof. reflexivity. Qed.

Example parseInt_ex4 : parseInt (lit "0x1F") = Some 31%Z.
Proof. reflexivity. Qed.

Example parseInt_ex5 : parseInt (lit "-7") = Some (-7)%Z.
Proof. reflexivity. Qed.

Example Number_of_bigint_ex1 :
  Number_of_bigint (2 ^ 53 + 1) = (2 ^ 53)%Z.
Proof. reflexivity. Qed.

Example Number_of_bigint_ex2 :
  Number_of_bigint (2 ^ 53 + 3) = (2 ^ 53 + 4)%Z.
Proof. reflexivity. Qed.

(** [parseInt] reads a leading integer and ignores what follows. *)
Example parseInt_ex6 : parseInt (lit "36 years") = Some 36%Z.
Proof. reflexivity. Qed.

Example parseInt_ex7 : parseInt (lit "0x") = None.
Proof. reflexivity. Qed.

(** [trim] runs before the zero-width code units are dropped: white
    space that a zero-width space shielded stays. *)
Example sanitize_ex2 : sanitize (0x200B :: 0x20 :: lit "Ada") = 0x20 :: lit "Ada".
Proof. reflexivity. Qed.

(** A field made of white space and zero-width code units is empty. *)
Example sanitize_ex3 : sanitize [0x20; 0x200B; 0xFEFF; 0x200D; 0x9] = [].
Proof. reflexivity. Qed.

Lemma removeZeroWidth_clean (s : jsstring) :
  Forall (fun c => isZeroWidth c = false) (removeZeroWidth s).
Proof.
  unfold removeZeroWidth.
  induction s as [| c r IH]; cbn [List.filter]; [constructor |].
  destruct (isZeroWidth c) eqn:Hc; cbn [negb]; [exact IH |].
  constructor; [exact Hc | exact IH].
Qed.

(** What goes to the contract holds no code unit of the class
    [[\u200B-\u200D\uFEFF]]. *)
Lemma sanitize_clean (s : jsstring) :
  Forall (fun c => isZeroWidth c = false) (sanitize s).
Proof. apply removeZeroWidth_clean. Qed.

Lemma trimStart_head (s r : jsstring) (c : N) :
  trimStart s = c :: r -> isWhiteSpace c = false.
Proof.
  induction s as [| a s IH]; cbn [trimStart]; [discriminate |].
  destruct (isWhiteSpace a) eqn:Ha; [exact IH |].
  intros [= <- _]. exact Ha.
Qed.

Lemma trimStart_keeps_last (l : jsstring) (c : N) :
  isWhiteSpace c = false -> exists l', trimStart (l ++ [c]) = l' ++ [c].
Proof.
  intros Hc. induction l as [| a l IH]; cbn [trimStart app].
  - rewrite Hc. exists []. reflexivity.
  - destruct (isWhiteSpace a); [exact IH |].
    exists (a :: l). reflexivity.
Qed.

(** [trim] leaves no white space at either end. *)
Lemma trim_head (s m : jsstring) (a : N) :
  trim s = a :: m -> isWhiteSpace a = false.
Proof.
  unfold trim, trimEnd.
  destruct (trimStart s) as [| c r] eqn:Ht; [discriminate |].
  pose proof (trimStart_head _ _ _ Ht) as Hc.
  cbn [rev].
  destruct (trimStart_keeps_last (rev r) c Hc) as [l' Hl'].
  rewrite Hl', rev_app_distr. cbn [rev app].
  intros [= <- _]. exact Hc.
Qed.

Lemma trim_last (s m : jsstring) (b : N) :
  trim s = m ++ [b] -> isWhiteSpace b = false.
Proof.
  unfold trim, trimEnd. intros Hs.
  apply (f_equal (@rev N)) in Hs.
  rewrite rev_involutive, rev_app_distr in Hs. cbn [rev app] in Hs.
  exact (trimStart_head _ _ _ Hs).
Qed.

(** ** Handlers *)

Lemma Number_of_bigint_exact (b : Z) :
  (Z.abs b < 2 ^ 53)%Z -> Number_of_bigint b = b.
Proof.
  intros Hb. unfold Number_of_bigint.
  destruct (Z.ltb_spec (Z.abs b) (2 ^ 53)); [reflexivity | lia].
Qed.

Lemma toUserData_profileView (r : User) : toUserData r = profileView r.
Proof.
  unfold toUserData, profileView, truthy.
  destruct (u_name r); reflexivity.
Qed.

Lemma sol_getUserInfo_added (a : jsstring) (u : User) (m : gmap jsstring User) :
  sol_getUserInfo a (sol_addUserInfo a u m) = u.
Proof.
  unfold sol_getUserInfo, sol_addUserInfo.
  rewrite lookup_insert_eq. reflexivity.
Qed.

Lemma addUserInfo_catch_eq (err : JsError) (s : Sys) :
  addUserInfo_catch err s = (with_ui (with_error (faultMessage err)) s, inr tt).
Proof.
  unfold addUserInfo_catch, faultMessage.
  repeat match goal with |- context [if ?b then _ else _] => destruct b end;
    reflexivity.
Qed.



(** With a wallet connected and a non-empty
    search box, a string that [isAddress] turns down makes [searchUser]
    show the invalid-address text; nothing is sent, the world is as
    before and every other cell keeps its value. *)
Lemma searchUser_rejects_malformed
    `{Ethers} (s : Sys) (c : Contract) :
  contract (ui s) = Some c ->
  isEmpty (searchAddress (ui s)) = false ->
  isAddress (searchAddress (ui s)) = false ->
  let s' := handle searchUser s in
  error (ui s') = lit "Please enter a valid Ethereum address"
  /\ calls s' = calls s
  /\ world s' = world s
  /\ ui s' = with_error (error (ui s')) (ui s).
Proof.
  intros Hc Hne Hbad. open_sys s. subst.
  unfold handle, searchUser. cbn. rewrite Hne, Hbad. cbn.

  mstep. intuition.
Qed.



(** C10. When the read itself is refused, each loader shows nothing and
    leaves both message cells as they were; the page ends in the very
    state it reaches when the contract answers and holds no profile. *)
Theorem C10_loaders_swallow_read_faults
    `{Ethers} (s : Sys) (c : Contract) (address : jsstring) (err : JsError) :
  contract (ui s) = Some c ->
  isAddress address = true ->
  read_fault (world s) = Some err ->
  let blank := with_world blankRegistry s in
  let s1 := fst (loadUserData (ui s) address s) in
  let s2 := fst (loadUserDataForCurrentUser (ui s) address None s) in
  (searchedUserData (ui s1) = None
   /\ error (ui s1) = error (ui s) /\ success (ui s1) = success (ui s)
   /\ ui s1 = ui (fst (loadUserData (ui s) address blank)))
  /\ (currentUserData (ui s2) = None
      /\ error (ui s2) = error (ui s) /\ success (ui s2) = success (ui s)
      /\ ui s2 =
         ui (fst (loadUserDataForCurrentUser (ui s) address None blank)))
  /\ (searchAddress (ui s) = address -> isEmpty address = false ->
      ui (handle searchUser s) = ui (handle searchUser blank)
      /\ error (ui (handle searchUser s)) = []).
Proof.
  intros Hc Hok Hrf. open_sys s. subst.
  unfold handle, searchUser, loadUserData. cbn. rewrite Hok. cbn.
  do 2 mstep. split; [| split].
  - repeat split; reflexivity.
  - repeat split; reflexivity.
  - intros -> Hne. rewrite Hne. cbn.
    repeat (progress (mstep; rewrite ?Hok)).
    split; reflexivity.
Qed.

Lemma C10_witness :
  let s := with_world
             (fun w => mkWorld (ethereum w) (wallet_accounts w)
                         (signer_fault w) (users w) (tx_fate w)
                         (Some callException))
             (@step shapeEthers (Change_searchAddress aliceAccount)
                aliceConnected) in
  searchedUserData (ui (fst (@loadUserData shapeEthers (ui s) aliceAccount s)))
    = None
  /\ currentUserData
       (ui (fst (loadUserDataForCurrentUser (ui s) aliceAccount None s)))
     = None
  /\ error (ui (handle (@searchUser shapeEthers) s)) = [].
Proof.
  destruct (@C10_loaders_swallow_read_faults shapeEthers
              (with_world
                 (fun w => mkWorld (ethereum w) (wallet_accounts w)
                             (signer_fault w) (users w) (tx_fate w)
                             (Some callException))
                 (@step shapeEthers (Change_searchAddress aliceAccount)
                    aliceConnected))
              aliceContract aliceAccount callException
              eq_refl eq_refl eq_refl)
    as ((H1 & _) & (H2 & _) & H3).
  destruct (H3 eq_refl eq_refl) as (_ & H4).
  split; [exact H1 | split; [exact H2 | exact H4]].
Defined.

Lemma faultMessage_nonempty (err : JsError) : isEmpty (faultMessage err) = false.
Proof.
  unfold faultMessage.
  repeat match goal with |- context [if ?b then _ else _] => destruct b end;
    reflexivity.
Qed.

(** The four classes of the specification, read off [faultMessage]. *)
Lemma faultMessage_classes (err : JsError) :
  (code_is err "INVALID_ARGUMENT" = true ->
   faultMessage err =
   lit "Invalid input data. Please check your entries and try again.")
  /\ (code_is err "INVALID_ARGUMENT" = false ->
      code_is err "UNPREDICTABLE_GAS_LIMIT" = false ->
      message_includes err "user rejected" = true ->
      faultMessage err = lit "Transaction was rejected by user")
  /\ (code_is err "INVALID_ARGUMENT" = false ->
      code_is err "UNPREDICTABLE_GAS_LIMIT" = false ->
      message_includes err "user rejected" = false ->
      message_includes err "insufficient funds" = true ->
      faultMessage err =
      lit "Insufficient funds to complete the transaction")
  /\ (code_is err "INVALID_ARGUMENT" = false ->
      code_is err "UNPREDICTABLE_GAS_LIMIT" = false ->
      message_includes err "user rejected" = false ->
      message_includes err "insufficient funds" = false ->
      faultMessage err =
      lit "Failed to add user info: " ++
      js_or (err_reason err) (js_or (err_message err) (lit "Unknown error"))).
Proof.
  unfold faultMessage.
  repeat split; intros; repeat match goal with H : _ = _ |- _ => rewrite H end;
    reflexivity.
Qed.

(** Events other than a tick of the clock leave a cell alone when the
    handler never writes it; the next two tactics walk the handlers. *)
Ltac walk_connectWallet :=
  unfold handle, connectWallet; mstep;
  match goal with |- context [if ?b then _ else _] => destruct b end;
  mstep; try reflexivity;
  match goal with
  | |- context [match ?w with inl _ => _ | inr _ => _ end] =>
      destruct w as [? | [? ?]]
  end;
  mstep; try reflexivity;
  match goal with
  | |- context [match ?f with Some _ => _ | None => _ end] => destruct f
  end;
  mstep; try reflexivity;
  match goal with
  | |- context [match ?f with Some _ => _ | None => _ end] => destruct f
  end;
  mstep; try reflexivity;
  try destruct (toUserData _); mstep; try reflexivity.

Ltac walk_addUserInfo :=
  unfold handle, addUserInfo; cbn;
  repeat match goal with
         | |- context [match ?o with Some _ => _ | None => _ end] =>
             is_var o; destruct o; [| mstep; reflexivity]
         end;
  repeat match goal with
         | |- context [if ?b then _ else _] =>
             destruct b; [mstep; reflexivity |]
         end;
  try (destruct (parseInt _); [| mstep; reflexivity]);
  repeat match goal with
         | |- context [if ?b then _ else _] =>
             destruct b; [mstep; reflexivity |]
         end.

(** C8 (as the code has it). The two viewers write to different cells.  Loading the own
    profile keeps the search result, the search box and both message
    cells; loading a searched profile keeps the own profile and both
    message cells.  At the level of events: only a search and a
    disconnect touch the search result, and only a connect, a submit and
    a disconnect touch the own profile. *)
Theorem C8_viewers_do_not_interfere
    `{Ethers} (s : Sys) (st : State) (address : jsstring)
    (contractInstance : option Contract) (e : Event) :
  let s1 := fst (loadUserDataForCurrentUser st address contractInstance s) in
  let s2 := fst (loadUserData st address s) in
  (searchedUserData (ui s1) = searchedUserData (ui s)
   /\ searchAddress (ui s1) = searchAddress (ui s)
   /\ error (ui s1) = error (ui s) /\ success (ui s1) = success (ui s))
  /\ (currentUserData (ui s2) = currentUserData (ui s)
      /\ error (ui s2) = error (ui s) /\ success (ui s2) = success (ui s))
  /\ (e <> Click_searchUser -> e <> Click_disconnectWallet ->
      searchedUserData (ui (step e s)) = searchedUserData (ui s))
  /\ (e <> Click_connectWallet -> e <> Submit_addUserInfo ->
      e <> Click_disconnectWallet ->
      currentUserData (ui (step e s)) = currentUserData (ui s)).
Proof.
  cbn zeta. split; [| split; [| split]].
  - open_sys s. unfold loadUserDataForCurrentUser.
    destruct contractInstance as [c|]; [| destruct (contract st) as [c|]];
      mstep; try (repeat split; reflexivity);
      destruct read_fault0; mstep;
      try destruct (toUserData _); mstep; repeat split; reflexivity.
  - open_sys s. unfold loadUserData.
    destruct (contract st) as [c|]; [destruct (isAddress address) |];
      mstep; try (repeat split; reflexivity);
      destruct read_fault0; mstep;
      try destruct (toUserData _); mstep; repeat split; reflexivity.
  - intros Hs Hd. destruct e; try congruence; cbn [step].
    + open_sys s. walk_connectWallet.
    + open_sys s. walk_addUserInfo.
      mstep. destruct tx_fate0 as [| ? | ? []]; mstep;
        rewrite ?addUserInfo_catch_eq; mstep; try reflexivity.
      destruct read_fault0; mstep;
        try destruct (toUserData _); mstep; reflexivity.
    + open_sys s. mstep. reflexivity.
    + open_sys s. mstep. reflexivity.
    + open_sys s. mstep. reflexivity.
    + open_sys s. mstep. reflexivity.
    + open_sys s. mstep. reflexivity.
    + unfold elapse, fire, commit.
      destruct (timer (timers s)) as [due|]; cbn -[N.add N.leb];
        [| reflexivity].
      destruct (due <=? clock (timers s) + dt); cbn -[N.add N.leb];
        [| reflexivity].
      destruct (ui s); reflexivity.
    + reflexivity.
  - intros Hc Ha Hd. destruct e; try congruence; cbn [step].
    + open_sys s. unfold handle, searchUser, loadUserData. cbn.
      destruct contract0 as [c|]; cbn; [| reflexivity].
      destruct (isEmpty searchAddress0); cbn; [reflexivity |].
      destruct (isAddress searchAddress0); cbn; [| reflexivity].
      mstep. destruct read_fault0; mstep;
        try destruct (toUserData _); mstep; reflexivity.
    + open_sys s. mstep. reflexivity.
    + open_sys s. mstep. reflexivity.
    + open_sys s. mstep. reflexivity.
    + open_sys s. mstep. reflexivity.
    + open_sys s. mstep. reflexivity.
    + unfold elapse, fire, commit.
      destruct (timer (timers s)) as [due|]; cbn -[N.add N.leb];
        [| reflexivity].
      destruct (due <=? clock (timers s) + dt); cbn -[N.add N.leb];
        [| reflexivity].
      destruct (ui s); reflexivity.
    + reflexivity.
Qed.


Lemma messageEffect_same (st : State) (t : Timers) :
  deps t = (error st, success st) -> messageEffect st t = t.
Proof.
  intros Hd. unfold messageEffect.
  rewrite bool_decide_eq_true_2 by exact Hd. reflexivity.
Qed.

Lemma messageEffect_new (st : State) (t : Timers) :
  deps t <> (error st, success st) ->
  messageEffect st t =
  mkTimers (clock t)
    (if truthy (error st) || truthy (success st)
     then Some (clock t + MESSAGE_DELAY) else None)
    (error st, success st).
Proof.
  intros Hd. unfold messageEffect.
  rewrite bool_decide_eq_false_2 by exact Hd. reflexivity.
Qed.

(** C6 (as the code has it). A message that becomes live at time [T]
    (the pair of texts differs from the one the effect last saw) starts a
    timer for [T + 5000]; the page is untouched until then and both texts
    are cleared at [T + 5000].  A set at [T + 2000] restarts the timer,
    for [T + 7000], exactly when it changes the pair of texts; setting
    the texts that are already shown leaves the timer at [T + 5000]. *)
Theorem C6_message_timer
    (s : Sys) (T : N) (e2 su2 : jsstring) :
  clock (timers s) = T ->
  truthy (error (ui s)) || truthy (success (ui s)) = true ->
  deps (timers s) <> (error (ui s), success (ui s)) ->
  let s1 := commit s in
  let s2 := commit (with_ui (with_messages e2 su2) (elapse 2000 s1)) in
  timer (timers s1) = Some (T + 5000)
  /\ (forall dt, dt < 5000 -> ui (elapse dt s1) = ui s)
  /\ (error (ui (elapse 5000 s1)) = [] /\ success (ui (elapse 5000 s1)) = []
      /\ timer (timers (elapse 5000 s1)) = None)
  /\ (if bool_decide ((e2, su2) = (error (ui s), success (ui s))) then
        timer (timers s2) = Some (T + 5000)
        /\ error (ui (elapse 3000 s2)) = []
        /\ success (ui (elapse 3000 s2)) = []
      else if truthy e2 || truthy su2 then
        timer (timers s2) = Some (T + 7000)
        /\ (forall dt, dt < 5000 -> ui (elapse dt s2) = ui s2)
        /\ error (ui (elapse 5000 s2)) = []
        /\ success (ui (elapse 5000 s2)) = []
      else
        timer (timers s2) = None).
Proof.
  intros HT Hlive Hnew.
  destruct s as [st w cs t]. cbn in *.
  unfold commit, elapse, fire, with_ui, with_messages. cbn -[N.add N.leb].
  rewrite (messageEffect_new _ _ Hnew). cbn -[N.add N.leb].
  rewrite Hlive, HT. unfold MESSAGE_DELAY.
  split; [reflexivity |]. split; [| split].
  - intros dt Hdt.
    destruct (N.leb_spec (T + 5000) (T + dt)); [lia | reflexivity].
  - destruct (N.leb_spec (T + 5000) (T + 5000)); [| lia]. cbn -[N.add N.leb].
    rewrite messageEffect_new; cbn -[N.add N.leb].
    + destruct st; repeat split; reflexivity.
    + destruct st; cbn in *. intros Hd. injection Hd as -> ->.
      discriminate Hlive.
  - destruct (N.leb_spec (T + 5000) (T + 2000)); [lia |]. cbn -[N.add N.leb].
    case_bool_decide as He.
    + injection He as -> ->.
      rewrite messageEffect_same by (destruct st; reflexivity).
      cbn -[N.add N.leb].
      destruct (N.leb_spec (T + 5000) (T + 2000 + 3000)); [| lia].
      cbn -[N.add N.leb]. destruct st; repeat split; reflexivity.
    + rewrite messageEffect_new
        by (destruct st; cbn in *; congruence).
      replace (truthy (error (with_success su2 (with_error e2 st)))
               || truthy (success (with_success su2 (with_error e2 st))))
        with (truthy e2 || truthy su2) by (destruct st; reflexivity).
      destruct (truthy e2 || truthy su2) eqn:Hlive2; cbn -[N.add N.leb];
        [| reflexivity].
      unfold MESSAGE_DELAY.
      replace (T + 2000 + 5000) with (T + 7000) by lia.
      split; [reflexivity |]. split.
      * intros dt Hdt.
        destruct (N.leb_spec (T + 7000) (T + 2000 + dt)); [lia | reflexivity].
      * destruct (N.leb_spec (T + 7000) (T + 7000)); [| lia].
        cbn -[N.add N.leb]. destruct st; split; reflexivity.
Qed.

Lemma C6_witness :
  let s1 := @step shapeEthers Click_connectWallet (initialSys bareWorld) in
  timer (timers s1) = Some 5000
  /\ error (ui (elapse 4999 s1)) =
       lit "Please install MetaMask to use this application"
  /\ error (ui (elapse 5000 s1)) = [].
Proof.
  destruct (C6_message_timer
              (fst (connectWallet initialState (initialSys bareWorld)))
              0 [] [] eq_refl eq_refl) as (H1 & H2 & (H3 & _) & _).
  - vm_compute. discriminate.
  - split; [exact H1 |].
    split; [exact (f_equal error (H2 4999 eq_refl)) | exact H3].
Defined.

(** C6, as stated, fails when the message set at [T + 2] is the one
    already shown: on a browser without a wallet, a second click on
    Connect two seconds after the first leaves the timer where it was,
    and the text is gone at [T + 5], not at [T + 7]. *)
Lemma C6_counterexample :
  let s1 := @step shapeEthers Click_connectWallet (initialSys bareWorld) in
  let s2 := @step shapeEthers Click_connectWallet
              (@step shapeEthers (Elapse 2000) s1) in
  let s3 := @step shapeEthers (Elapse 3000) s2 in
  clock (timers s1) = 0
  /\ error (ui s1) = lit "Please install MetaMask to use this application"
  /\ timer (timers s1) = Some 5000
  /\ clock (timers s2) = 2000
  /\ error (ui s2) = lit "Please install MetaMask to use this application"
  /\ timer (timers s2) = Some 5000
  /\ timer (timers s2) <> Some 7000
  /\ clock (timers s3) = 5000
  /\ error (ui s3) = [].
Proof. vm_compute. repeat split; try reflexivity. discriminate. Qed.



(** Every reachable session is coherent: a contract handle, when there
    is one, is run by the signer held in [signer], and that signer signs
    for [account]. *)
Lemma session_coherent `{Ethers} (es : list Event) (s : Sys) :
  (forall c, contract (ui s) = Some c ->
     signer (ui s) = Some (contract_runner c)
     /\ signer_address (contract_runner c) = account (ui s)) ->
  forall c, contract (ui (run es s)) = Some c ->
    signer (ui (run es s)) = Some (contract_runner c)
    /\ signer_address (contract_runner c) = account (ui (run es s)).
Proof.
  revert s. induction es as [| e es IH]; intros s Hs; [exact Hs |].
  cbn [run fold_left]. apply IH. clear IH.
  destruct e; cbn [step].
  - open_sys s. unfold handle, connectWallet. mstep.
    destruct ethereum0; mstep; [| exact Hs].
    destruct wallet_accounts0 as [err | [a l]]; mstep; [exact Hs |].
    destruct signer_fault0; mstep; [exact Hs |].
    destruct read_fault0; mstep;
      try destruct (toUserData _); mstep;
      intros c [= <-]; split; reflexivity.
  - open_sys s. unfold handle, disconnectWallet. do 2 mstep.
    intros c [=].
  - open_sys s. unfold handle, addUserInfo. cbn.
    destruct contract0 as [c|]; [| mstep; exact Hs].
    destruct signer0; [| mstep; exact Hs].
    repeat match goal with
           | |- context [if ?b then _ else _] =>
               destruct b; [mstep; exact Hs |]
           end.
    destruct (parseInt _) as [n|]; [| mstep; exact Hs].
    destruct ((n <=? 0)%Z || (150 <? n)%Z); [mstep; exact Hs |].
    mstep. destruct tx_fate0 as [| ? | ? []]; mstep;
      rewrite ?addUserInfo_catch_eq; mstep; try exact Hs.
    destruct read_fault0; mstep;
      try destruct (toUserData _); mstep; exact Hs.
  - open_sys s. unfold handle, searchUser, loadUserData. cbn.
    destruct contract0 as [c|]; cbn; [| exact Hs].
    destruct (isEmpty searchAddress0); cbn; [exact Hs |].
    destruct (isAddress searchAddress0); cbn; [| mstep; exact Hs].
    mstep. destruct read_fault0; mstep;
      try destruct (toUserData _); mstep; exact Hs.
  - open_sys s. mstep. exact Hs.
  - open_sys s. mstep. exact Hs.
  - open_sys s. mstep. exact Hs.
  - open_sys s. mstep. exact Hs.
  - open_sys s. mstep. exact Hs.
  - unfold elapse, fire, commit.
    destruct (timer (timers s)) as [due|]; cbn -[N.add N.leb]; [| exact Hs].
    destruct (due <=? clock (timers s) + dt); cbn -[N.add N.leb];
      [| exact Hs].
    destruct (ui s); exact Hs.
  - exact Hs.
Qed.

Lemma reachable_session_coherent `{Ethers} (s : Sys) (c : Contract) :
  reachable s ->
  contract (ui s) = Some c ->
  signer (ui s) = Some (contract_runner c)
  /\ signer_address (contract_runner c) = account (ui s).
Proof.
  intros (w & es & ->). apply session_coherent. intros c' [=].
Qed.

(** * More of the page *)

(** ** Invariants *)

Lemma deps_messageEffect (st : State) (t : Timers) :
  deps (messageEffect st t) = (error st, success st).
Proof.
  unfold messageEffect. case_bool_decide as Hd; [exact Hd | reflexivity].
Qed.

Lemma clock_messageEffect (st : State) (t : Timers) :
  clock (messageEffect st t) = clock t.
Proof. unfold messageEffect. case_bool_decide; reflexivity. Qed.

Lemma timerSound_messageEffect (st : State) (t : Timers) :
  timerSound t -> timerSound (messageEffect st t).
Proof.
  intros Ht.
  destruct (decide (deps t = (error st, success st))) as [Hd | Hd].
  - rewrite messageEffect_same by exact Hd. exact Ht.
  - rewrite messageEffect_new by exact Hd.
    unfold timerSound, MESSAGE_DELAY. cbn -[N.add].
    destruct (truthy (error st) || truthy (success st)); [| reflexivity].
    eexists. split; [reflexivity |]. lia.
Qed.

Lemma toUserData_named (r : User) (d : UserData) :
  toUserData r = Some d -> ud_name d <> [].
Proof.
  unfold toUserData, truthy. destruct (u_name r) eqn:Hn; cbn; [discriminate |].
  intros [= <-]. cbn. discriminate.
Qed.

Lemma isEmpty_false (s : jsstring) : isEmpty s = false -> s <> [].
Proof. destruct s; [discriminate | discriminate]. Qed.

(** The checks of [addUserInfo] passed: what is sent is a valid call. *)
Lemma validCall_sanitized (sender name profession bio : jsstring) (n : Z) :
  isEmpty (sanitize name) = false ->
  isEmpty (sanitize profession) = false ->
  isEmpty (sanitize bio) = false ->
  (n <=? 0)%Z || (150 <? n)%Z = false ->
  validCall (Call_addUserInfo sender (sanitize name) n (sanitize profession)
               (sanitize bio)).
Proof.
  intros Hn Hp Hb Ha. cbn.
  split; [lia |].
  repeat split; try (apply isEmpty_false; assumption).
  rewrite !Forall_app. repeat split; apply sanitize_clean.
Qed.

Lemma Forall_validCall_snoc (l : list Call) (c : Call) :
  Forall validCall l -> validCall c -> Forall validCall (l ++ [c]).
Proof.
  intros Hl Hc. rewrite Forall_app. split; [exact Hl |].
  constructor; [exact Hc | constructor].
Qed.

(** Split a system into named cells. *)
Ltac open_page s :=
  destruct s as [[acc ctr prov sgn ld er su fd cud sadr sud]
                 [eth wacc sflt usr txf rflt] cls tmr];
  cbn in *.

(** Close a leaf of a walk through a handler: the six parts of
    [pageInv], each from what the walk left in the context. *)
Ltac inv_leaf :=
  unfold pageInv, sessionInv, profilesNamed in *; cbn;
  split; [first [assumption | repeat split; reflexivity] |];
  split; [first [reflexivity | assumption] |];
  split; [rewrite deps_messageEffect; reflexivity |];
  split; [repeat apply timerSound_messageEffect; assumption |];
  split;
  [ split;
    first [ assumption
          | intros ? Hx; discriminate Hx
          | intros ? [= <-]; eapply toUserData_named; eassumption ]
  | repeat (apply Forall_validCall_snoc;
            [| first [exact I | eauto using validCall_sanitized]]);
    assumption ].

Lemma step_pageInv `{Ethers} (e : Event) (s : Sys) :
  pageInv s -> pageInv (step e s).
Proof.
  intros (Hsess & Hload & Hdeps & Htimer & [Hn1 Hn2] & Hcalls).
  destruct e; cbn [step].
  - (* connectWallet *)
    open_page s. unfold handle, connectWallet. mstep.
    destruct eth; mstep; [| inv_leaf].
    destruct wacc as [err | [a l]]; mstep; [inv_leaf |].
    destruct sflt; mstep; [inv_leaf |].
    destruct rflt; mstep; [inv_leaf |].
    destruct (toUserData _) eqn:Hd; mstep; inv_leaf.
  - (* disconnectWallet *)
    open_page s. unfold handle, disconnectWallet. do 2 mstep. inv_leaf.
  - (* addUserInfo *)
    open_page s. unfold handle, addUserInfo. cbn.
    destruct ctr as [c|]; [| mstep; inv_leaf].
    destruct sgn; [| mstep; inv_leaf].
    destruct (isEmpty (sanitize (fd_name fd))) eqn:Hn;
      [mstep; inv_leaf |].
    destruct (isEmpty (sanitize (fd_profession fd))) eqn:Hp;
      [mstep; inv_leaf |].
    destruct (isEmpty (sanitize (fd_bio fd))) eqn:Hb;
      [mstep; inv_leaf |].
    destruct (parseInt (fd_age fd)) as [n|]; [| mstep; inv_leaf].
    destruct ((n <=? 0)%Z || (150 <? n)%Z) eqn:Ha; [mstep; inv_leaf |].
    mstep. destruct txf as [| ? | ? []]; mstep;
      rewrite ?addUserInfo_catch_eq; mstep; try solve [inv_leaf].
    destruct rflt; mstep; [inv_leaf |].
    destruct (toUserData _) eqn:Hd; mstep; inv_leaf.
  - (* searchUser *)
    open_page s. unfold handle, searchUser, loadUserData. cbn.
    destruct ctr as [c|]; cbn; [| inv_leaf].
    destruct (isEmpty sadr); cbn; [inv_leaf |].
    destruct (isAddress sadr); cbn; [| mstep; inv_leaf].
    mstep. destruct rflt; mstep; [inv_leaf |].
    destruct (toUserData _) eqn:Hd; mstep; inv_leaf.
  - open_page s. mstep. inv_leaf.
  - open_page s. mstep. inv_leaf.
  - open_page s. mstep. inv_leaf.
  - open_page s. mstep. inv_leaf.
  - open_page s. mstep. inv_leaf.
  - (* time passes *)
    open_page s. destruct tmr as [clk tm dp]. cbn in *. subst dp.
    unfold elapse, fire, commit. cbn -[N.add N.leb].
    unfold timerSound in Htimer. cbn -[N.add] in Htimer.
    destruct tm as [due|]; cbn -[N.add N.leb].
    + destruct (N.leb_spec due (clk + dt)) as [Hdue | Hdue];
        cbn -[N.add N.leb].
      * unfold pageInv. cbn -[N.add].
        rewrite deps_messageEffect.
        repeat split; try assumption.
        destruct (decide ((er, su) = ([], []))) as [He | He].
        -- rewrite messageEffect_same by exact He.
           unfold timerSound. cbn -[N.add]. injection He as -> ->.
           reflexivity.
        -- rewrite messageEffect_new by exact He. reflexivity.
      * unfold pageInv, timerSound. cbn -[N.add].
        repeat split; try assumption.
        destruct (truthy er || truthy su); [| discriminate Htimer].
        destruct Htimer as (due' & [= <-] & Hlo & Hhi).
        exists due. unfold MESSAGE_DELAY in *. repeat split; lia.
    + unfold pageInv, timerSound. cbn -[N.add].
      repeat split; try assumption.
      destruct (truthy er || truthy su); [| reflexivity].
      destruct Htimer as (due' & [=] & _).
  - (* the world changes *)
    unfold pageInv. cbn. repeat split; assumption.
Qed.

Lemma initial_pageInv (w : World) : pageInv (initialSys w).
Proof.
  unfold pageInv, sessionInv, profilesNamed, timerSound. cbn.
  repeat split; try discriminate. constructor.
Qed.

Lemma run_pageInv `{Ethers} (es : list Event) (s : Sys) :
  pageInv s -> pageInv (run es s).
Proof.
  revert s. induction es as [| e es IH]; intros s Hs; [exact Hs |].
  cbn [run fold_left]. apply IH, step_pageInv, Hs.
Qed.

(** X4. After any sequence of events, each handled to completion, the
    page is connected as a whole or not at all: with a contract handle
    come the signer that runs it and the provider, and the handle points
    at the deployed contract; without one there is no signer, provider
    or account and no profile is held.  Wherever the panels are
    rendered, a contract and a signer are at hand. *)
Theorem session_whole_or_absent `{Ethers} (w : World) (es : list Event) :
  let st := ui (run es (initialSys w)) in
  sessionInv st
  /\ (rendersPanels st = true ->
      exists c sg, contract st = Some c /\ signer st = Some sg).
Proof.
  cbn zeta.
  destruct (run_pageInv es _ (initial_pageInv w)) as (Hs & _).
  split; [exact Hs |].
  unfold sessionInv, rendersPanels in *.
  destruct (contract (ui (run es (initialSys w)))) as [c|].
  - destruct Hs as (_ & Hsg & _). eauto.
  - destruct Hs as (_ & _ & Ha & _). rewrite Ha. discriminate.
Qed.

(** X5. No sequence of events leaves the loading flag up: every handler
    that raises it lowers it in its [finally], whatever the outcome. *)
Theorem loading_never_stuck `{Ethers} (w : World) (es : list Event) :
  loading (ui (run es (initialSys w))) = false.
Proof.
  destruct (run_pageInv es _ (initial_pageInv w)) as (_ & Hl & _).
  exact Hl.
Qed.

(** X6. At every moment a timeout is pending exactly when a message is
    shown, and it is due within five seconds: a message stays while its
    timeout is not due, and five seconds (or more) without an event
    leave the page without any message. *)
Theorem messages_expire `{Ethers} (w : World) (es : list Event) :
  let s := run es (initialSys w) in
  (truthy (error (ui s)) || truthy (success (ui s)) = true ->
   exists due, timer (timers s) = Some due
               /\ clock (timers s) < due <= clock (timers s) + 5000
               /\ forall dt, clock (timers s) + dt < due ->
                    ui (elapse dt s) = ui s)
  /\ (truthy (error (ui s)) || truthy (success (ui s)) = false ->
      timer (timers s) = None)
  /\ (forall dt, 5000 <= dt ->
      error (ui (elapse dt s)) = [] /\ success (ui (elapse dt s)) = []).
Proof.
  cbn zeta.
  destruct (run_pageInv es _ (initial_pageInv w))
    as (_ & _ & Hd & Ht & _).
  destruct (run es (initialSys w)) as [st wd cs [clk tm dp]].
  cbn in *. subst dp. unfold timerSound, MESSAGE_DELAY in Ht.
  cbn -[N.add] in Ht. unfold elapse. cbn -[N.add N.leb].
  destruct (truthy (error st) || truthy (success st)) eqn:Hlive.
  - destruct Ht as (due & -> & Hlo & Hhi).
    split; [| split; [discriminate |]].
    + intros _. exists due. repeat split; try assumption.
      intros dt Hdt.
      destruct (N.leb_spec due (clk + dt)); [lia | reflexivity].
    + intros dt Hdt.
      destruct (N.leb_spec due (clk + dt)); [| lia].
      unfold fire, commit. cbn. destruct st; split; reflexivity.
  - subst tm. split; [discriminate |]. split; [reflexivity |].
    intros dt _. cbn.
    destruct (error st), (success st); try discriminate Hlive.
    split; reflexivity.
Qed.

(** X7. A profile is never displayed without a name: both viewers show a
    record only when its name is not empty. *)
Theorem displayed_profiles_have_names `{Ethers} (w : World) (es : list Event) :
  let st := ui (run es (initialSys w)) in
  (forall d, currentUserData st = Some d -> ud_name d <> [])
  /\ (forall d, searchedUserData st = Some d -> ud_name d <> []).
Proof.
  destruct (run_pageInv es _ (initial_pageInv w))
    as (_ & _ & _ & _ & Hn & _).
  exact Hn.
Qed.

(** X8. Every [addUserInfo] request the page has ever sent carries an age
    between 1 and 150 and a name, a profession and a bio that are not
    empty and hold no zero-width code unit. *)
Theorem only_validated_writes_are_sent `{Ethers} (w : World) (es : list Event) :
  Forall validCall (calls (run es (initialSys w))).
Proof.
  destruct (run_pageInv es _ (initial_pageInv w))
    as (_ & _ & _ & _ & _ & Hc).
  exact Hc.
Qed.

(** ** Connecting *)

(** X1. A connection the wallet grants: the account is the first one the
    wallet exposed, the contract handle points at the deployed contract
    and is run by that account's signer, the error is cleared and the
    connected notice is shown; the requests are, in order, the account
    request, the signer request and one read of that account, whose
    record (if the read is answered) is what the own profile shows. *)
Theorem connect_granted
    (s : Sys) (a : jsstring) (rest : list jsstring) :
  ethereum (world s) = true ->
  wallet_accounts (world s) = inr (a, rest) ->
  signer_fault (world s) = None ->
  let s' := handle connectWallet s in
  account (ui s') = a
  /\ contract (ui s') = Some (mkContract CONTRACT_ADDRESS (mkSigner a))
  /\ signer (ui s') = Some (mkSigner a)
  /\ provider (ui s') = Some mkBrowserProvider
  /\ error (ui s') = []
  /\ success (ui s') = lit "Wallet connected successfully!"
  /\ calls s' =
       calls s ++ [Call_eth_requestAccounts; Call_getSigner;
                   Call_getUserInfo a]
  /\ currentUserData (ui s') =
       match read_fault (world s) with
       | None => profileView (sol_getUserInfo a (users (world s)))
       | Some _ => None
       end
  /\ world s' = world s.
Proof.
  intros He Hw Hs. open_page s.
  unfold handle, connectWallet. mstep.
  destruct eth; [| discriminate He]. mstep.
  destruct wacc as [err | [a' l]]; [discriminate Hw |].
  injection Hw as -> ->. mstep.
  destruct sflt; [discriminate Hs |]. mstep.
  destruct rflt; mstep.
  - repeat split; try reflexivity. now rewrite <- !app_assoc.
  - rewrite toUserData_profileView.
    destruct (profileView _); mstep;
      repeat split; try reflexivity; now rewrite <- !app_assoc.
Qed.

Lemma connect_granted_witness :
  let s' := handle connectWallet (initialSys aliceWorld) in
  account (ui s') = aliceAccount
  /\ contract (ui s') = Some aliceContract
  /\ calls s' = [Call_eth_requestAccounts; Call_getSigner;
                 Call_getUserInfo aliceAccount]
  /\ currentUserData (ui s') = None.
Proof.
  destruct (connect_granted (initialSys aliceWorld) aliceAccount []
              eq_refl eq_refl eq_refl)
    as (H1 & H2 & _ & _ & _ & _ & H7 & H8 & _).
  split; [exact H1 | split; [exact H2 | split; [exact H7 | exact H8]]].
Defined.

(** X2. A connection attempt ends in one of two ways.  Either it fails:
    an error text (never empty) is shown and every other cell, the
    session and the success text included, is what it was.  Or the
    session is complete: contract, signer, provider and account all
    belong to one account, the error is empty and the connected notice
    is shown.  There is no state in between. *)
Theorem connect_all_or_nothing (s : Sys) :
  let s' := handle connectWallet s in
  (ui s' = with_error (error (ui s')) (ui s)
   /\ isEmpty (error (ui s')) = false
   /\ Forall (fun c => c = Call_eth_requestAccounts \/ c = Call_getSigner)
        (drop (length (calls s)) (calls s')))
  \/ (exists a,
        account (ui s') = a
        /\ contract (ui s') = Some (mkContract CONTRACT_ADDRESS (mkSigner a))
        /\ signer (ui s') = Some (mkSigner a)
        /\ provider (ui s') = Some mkBrowserProvider
        /\ error (ui s') = []
        /\ success (ui s') = lit "Wallet connected successfully!").
Proof.
  cbn zeta. open_page s. unfold handle, connectWallet. mstep.
  destruct eth; mstep.
  2:{ left. rewrite drop_all.
      split; [reflexivity | split; [reflexivity | constructor]]. }
  destruct wacc as [err | [a l]]; mstep.
  { left. rewrite drop_app_length.
    split; [reflexivity | split; [reflexivity |]].
    repeat constructor. }
  destruct sflt; mstep.
  { left. rewrite <- app_assoc, drop_app_length.
    split; [reflexivity | split; [reflexivity |]].
    repeat (constructor; auto). }
  right. exists a.
  destruct rflt; mstep; [| destruct (toUserData _); mstep];
    repeat split; reflexivity.
Qed.

(** ** Submitting without a wallet *)

(** X3. Without a contract handle or without a signer, [addUserInfo]
    only shows the connect-first text: nothing is validated, nothing is
    sent, and every other cell keeps its value. *)
Theorem submit_without_wallet (s : Sys) :
  contract (ui s) = None \/ signer (ui s) = None ->
  let s' := handle addUserInfo s in
  error (ui s') = lit "Please connect your wallet first"
  /\ ui s' = with_error (error (ui s')) (ui s)
  /\ calls s' = calls s
  /\ world s' = world s.
Proof.
  intros Hno. open_page s. unfold handle, addUserInfo. cbn.
  destruct Hno as [-> | ->]; [| destruct ctr]; mstep;
    repeat split; reflexivity.
Qed.

Lemma submit_without_wallet_witness :
  let s := @step shapeEthers (Change_name (lit "Ada")) (initialSys aliceWorld) in
  error (ui (handle addUserInfo s)) = lit "Please connect your wallet first"
  /\ calls (handle addUserInfo s) = [].
Proof.
  destruct (submit_without_wallet
              (@step shapeEthers (Change_name (lit "Ada"))
                 (initialSys aliceWorld))
              (or_introl eq_refl)) as (H1 & _ & H3 & _).
  split; [exact H1 | exact H3].
Defined.

(** ** Searching *)

(** X9. A click on Search sends at most one request, a read of the
    address in the search box, and only for an address that [isAddress]
    accepts: no read ever goes out for a malformed address. *)
Theorem search_reads_only_wellformed `{Ethers} (s : Sys) :
  let s' := step Click_searchUser s in
  calls s' = calls s
  \/ (calls s' = calls s ++ [Call_getUserInfo (searchAddress (ui s))]
      /\ isAddress (searchAddress (ui s)) = true).
Proof.
  cbn zeta. cbn [step]. open_page s.
  unfold handle, searchUser, loadUserData. cbn.
  destruct ctr as [c|]; cbn; [| left; reflexivity].
  destruct (isEmpty sadr); cbn; [left; reflexivity |].
  destruct (isAddress sadr) eqn:Hok; cbn; [| mstep; left; reflexivity].
  right. mstep.
  destruct rflt; mstep; [| destruct (toUserData _); mstep];
    split; reflexivity.
Qed.

(** X10. Wherever the Search button can be clicked (the panels are
    rendered, the page is not loading and the search box is not empty) a
    click is never silent: for a malformed address the invalid-address
    text is shown and nothing is sent, otherwise exactly one read of
    that address goes out and the error cell ends up empty. *)
Theorem clickable_search_is_never_silent
    `{Ethers} (w : World) (es : list Event) :
  let s := run es (initialSys w) in
  searchClickable (ui s) = true ->
  let s' := step Click_searchUser s in
  if isAddress (searchAddress (ui s)) then
    calls s' = calls s ++ [Call_getUserInfo (searchAddress (ui s))]
    /\ error (ui s') = []
  else
    calls s' = calls s
    /\ error (ui s') = lit "Please enter a valid Ethereum address".
Proof.
  cbn zeta. intros Hclick.
  destruct (run_pageInv es _ (initial_pageInv w)) as (Hs & _).
  revert Hclick Hs. generalize (run es (initialSys w)). intros s Hclick Hs.
  cbn [step]. open_page s.
  unfold searchClickable, rendersPanels, truthy, sessionInv in *. cbn in *.
  destruct ctr as [c|].
  2:{ destruct Hs as (_ & _ & -> & _). discriminate Hclick. }
  destruct ld; [rewrite andb_false_r in Hclick; discriminate Hclick |].
  destruct (isEmpty sadr) eqn:Hne;
    [rewrite andb_false_r in Hclick; discriminate Hclick |].
  unfold handle, searchUser, loadUserData. cbn. rewrite Hne. cbn.
  destruct (isAddress sadr) eqn:Hok; cbn.
  - mstep. destruct rflt; mstep; [| destruct (toUserData _); mstep];
      split; reflexivity.
  - mstep. split; reflexivity.
Qed.

Lemma clickable_search_is_never_silent_witness :
  let s := @run shapeEthers
             [Click_connectWallet; Change_searchAddress (lit "0x123")]
             (initialSys aliceWorld) in
  calls (@step shapeEthers Click_searchUser s) = calls s
  /\ error (ui (@step shapeEthers Click_searchUser s)) =
       lit "Please enter a valid Ethereum address".
Proof.
  exact (@clickable_search_is_never_silent shapeEthers aliceWorld
           [Click_connectWallet; Change_searchAddress (lit "0x123")]
           eq_refl).
Defined.

(** X11. The notice "No profile found for this address" needs no search:
    on a connected page that is not loading and holds no search result,
    typing anything into the search box renders the notice although no
    request has gone out; and after a click on Search with a malformed
    address the notice is rendered together with the invalid-address
    error. *)
Theorem no_profile_notice_precedes_search
    `{Ethers} (s : Sys) (v : jsstring) :
  rendersPanels (ui s) = true ->
  loading (ui s) = false ->
  searchedUserData (ui s) = None ->
  isEmpty v = false ->
  let s1 := step (Change_searchAddress v) s in
  rendersNoProfileNotice (ui s1) = true
  /\ calls s1 = calls s
  /\ (isAddress v = false -> contract (ui s) <> None ->
      rendersNoProfileNotice (ui (step Click_searchUser s1)) = true
      /\ error (ui (step Click_searchUser s1)) =
           lit "Please enter a valid Ethereum address").
Proof.
  intros Hp Hl Hr Hv. cbn zeta. cbn [step]. open_page s. subst.
  unfold rendersNoProfileNotice, rendersPanels, truthy in *. cbn in *.
  mstep. rewrite Hp, Hv. cbn.
  split; [reflexivity | split; [reflexivity |]].
  intros Hbad Hc. destruct ctr as [c|]; [| congruence].
  unfold searchUser. cbn. rewrite Hv, Hbad. cbn. mstep.
  rewrite Hp, Hv. split; reflexivity.
Qed.

Lemma no_profile_notice_precedes_search_witness :
  let s1 := @step shapeEthers (Change_searchAddress (lit "0x"))
              aliceConnected in
  rendersNoProfileNotice (ui s1) = true /\ calls s1 = calls aliceConnected.
Proof.
  destruct (@no_profile_notice_precedes_search shapeEthers aliceConnected
              (lit "0x") eq_refl eq_refl eq_refl eq_refl)
    as (H1 & H2 & _).
  split; [exact H1 | exact H2].
Defined.

(** ** Operations in sequence *)

(** The record a valid form stands for. *)
Lemma validForm_parts (f : FormData) :
  validForm f = true ->
  exists n,
    parseInt (fd_age f) = Some n /\ (1 <= n <= 150)%Z
    /\ isEmpty (sanitize (fd_name f)) = false
    /\ isEmpty (sanitize (fd_profession f)) = false
    /\ isEmpty (sanitize (fd_bio f)) = false.
Proof.
  unfold validForm. intros Hv.
  destruct (isEmpty (sanitize (fd_name f))); [discriminate |].
  destruct (isEmpty (sanitize (fd_profession f))); [discriminate |].
  destruct (isEmpty (sanitize (fd_bio f))); [discriminate |].
  destruct (parseInt (fd_age f)) as [n|]; [| discriminate].
  cbn in Hv. exists n. repeat split; lia.
Qed.

(** The page after a valid form was sent, mined and read back. *)
Lemma submit_mined_result
    (s : Sys) (c : Contract) (sg : JsonRpcSigner) (n : Z) :
  contract (ui s) = Some c ->
  signer (ui s) = Some sg ->
  signer_address (contract_runner c) = account (ui s) ->
  validForm (formData (ui s)) = true ->
  parseInt (fd_age (formData (ui s))) = Some n ->
  tx_fate (world s) = TxMined ->
  read_fault (world s) = None ->
  let f := formData (ui s) in
  let s' := handle addUserInfo s in
  ui s' =
    mkState (account (ui s)) (contract (ui s)) (provider (ui s))
      (signer (ui s)) false []
      (lit "User information added successfully!") emptyForm
      (Some (mkUserData (sanitize (fd_name f)) n (sanitize (fd_profession f))
               (sanitize (fd_bio f))))
      (searchAddress (ui s)) (searchedUserData (ui s))
  /\ world s' =
       with_users
         (<[account (ui s) :=
              mkUser (sanitize (fd_name f)) n (sanitize (fd_profession f))
                (sanitize (fd_bio f))]> (users (world s)))
         (world s)
  /\ calls s' =
       calls s ++
       [ Call_addUserInfo (account (ui s)) (sanitize (fd_name f)) n
           (sanitize (fd_profession f)) (sanitize (fd_bio f));
         Call_wait;
         Call_getUserInfo (account (ui s)) ].
Proof.
  intros Hc Hs Ha Hv Hage Htx Hrf.
  destruct (validForm_parts _ Hv) as (n' & Hage' & Hr & Hn & Hp & Hb).
  rewrite Hage in Hage'. injection Hage' as <-.
  open_page s. subst.
  unfold handle, addUserInfo. cbn. rewrite Hn, Hp, Hb, Hage.
  replace ((n <=? 0)%Z || (150 <? n)%Z) with false by lia.
  do 2 mstep.
  rewrite sol_getUserInfo_added, toUserData_profileView.
  unfold profileView; cbn. rewrite Hn. cbn.
  rewrite Number_of_bigint_exact by lia.
  repeat split; try reflexivity. now rewrite <- !app_assoc.
Qed.

(** The page after a search that is sent and answered. *)
Lemma search_answered_result `{Ethers} (s : Sys) (c : Contract) :
  contract (ui s) = Some c ->
  isEmpty (searchAddress (ui s)) = false ->
  isAddress (searchAddress (ui s)) = true ->
  read_fault (world s) = None ->
  searchedUserData (ui (step Click_searchUser s)) =
    toUserData (sol_getUserInfo (searchAddress (ui s)) (users (world s)))
  /\ currentUserData (ui (step Click_searchUser s)) = currentUserData (ui s)
  /\ error (ui (step Click_searchUser s)) = [].
Proof.
  intros Hc Hne Hok Hrf. cbn [step]. open_page s. subst.
  unfold handle, searchUser, loadUserData. cbn. rewrite Hne, Hok. cbn.
  mstep. destruct (toUserData _); mstep; repeat split; reflexivity.
Qed.

Lemma step_Change_searchAddress `{Ethers} (s : Sys) (v : jsstring) :
  ui (step (Change_searchAddress v) s) = with_searchAddress v (ui s)
  /\ world (step (Change_searchAddress v) s) = world s
  /\ calls (step (Change_searchAddress v) s) = calls s.
Proof. destruct s. repeat split; reflexivity. Qed.

(** X13. What a user writes is what a search for that user finds: after a
    valid form is mined and read back, typing the own account into the
    search box and clicking Search shows, as search result, the very
    profile shown as own profile, namely the sanitized record sent. *)
Theorem written_profile_is_found_by_search
    `{Ethers} (s : Sys) (c : Contract) (sg : JsonRpcSigner) (n : Z) :
  contract (ui s) = Some c ->
  signer (ui s) = Some sg ->
  signer_address (contract_runner c) = account (ui s) ->
  validForm (formData (ui s)) = true ->
  parseInt (fd_age (formData (ui s))) = Some n ->
  tx_fate (world s) = TxMined ->
  read_fault (world s) = None ->
  isEmpty (account (ui s)) = false ->
  isAddress (account (ui s)) = true ->
  let f := formData (ui s) in
  let s' := run [ Submit_addUserInfo;
                  Change_searchAddress (account (ui s));
                  Click_searchUser ] s in
  searchedUserData (ui s') = currentUserData (ui s')
  /\ currentUserData (ui s') =
       Some (mkUserData (sanitize (fd_name f)) n
               (sanitize (fd_profession f)) (sanitize (fd_bio f))).
Proof.
  intros Hc Hs Ha Hv Hage Htx Hrf Hne Hok. cbn zeta.
  cbn [run fold_left].
  destruct (submit_mined_result s c sg n Hc Hs Ha Hv Hage Htx Hrf)
    as (Hu1 & Hw1 & _).
  change (step Submit_addUserInfo s) with (handle addUserInfo s).
  set (s1 := handle addUserInfo s) in *.
  destruct (step_Change_searchAddress s1 (account (ui s)))
    as (Hu2 & Hw2 & _).
  set (s2 := step (Change_searchAddress (account (ui s))) s1) in *.
  destruct (search_answered_result s2 c) as (Hr & Hcu & _).
  - rewrite Hu2, Hu1. cbn. exact Hc.
  - rewrite Hu2. cbn. exact Hne.
  - rewrite Hu2. cbn. exact Hok.
  - rewrite Hw2, Hw1. cbn. exact Hrf.
  - rewrite Hr, Hcu, Hu2, Hw2, Hw1, Hu1. cbn.
    rewrite sol_getUserInfo_added, toUserData_profileView.
    destruct (validForm_parts _ Hv) as (n' & Hage' & Hrg & Hn & _).
    rewrite Hage in Hage'. injection Hage' as <-.
    unfold profileView. cbn. rewrite Hn.
    rewrite Number_of_bigint_exact by lia. split; reflexivity.
Qed.

Lemma written_profile_is_found_by_search_witness :
  let s' := @run shapeEthers
              [ Submit_addUserInfo; Change_searchAddress aliceAccount;
                Click_searchUser ] aliceTyped in
  searchedUserData (ui s') = currentUserData (ui s')
  /\ currentUserData (ui s') =
       Some (mkUserData (lit "Ada") 36 (lit "Analyst")
               (lit "Wrote the first program")).
Proof.
  exact (@written_profile_is_found_by_search shapeEthers aliceTyped
           aliceContract (mkSigner aliceAccount) 36
           eq_refl eq_refl eq_refl eq_refl eq_refl eq_refl eq_refl eq_refl
           eq_refl).
Defined.

Lemma step_Change_form `{Ethers} (s : Sys) (v : jsstring) :
  let f := formData (ui s) in
  (ui (step (Change_name v) s) =
     with_formData (mkFormData v (fd_age f) (fd_profession f) (fd_bio f))
       (ui s)
   /\ world (step (Change_name v) s) = world s)
  /\ (ui (step (Change_age v) s) =
        with_formData (mkFormData (fd_name f) v (fd_profession f) (fd_bio f))
          (ui s)
      /\ world (step (Change_age v) s) = world s)
  /\ (ui (step (Change_profession v) s) =
        with_formData (mkFormData (fd_name f) (fd_age f) v (fd_bio f)) (ui s)
      /\ world (step (Change_profession v) s) = world s)
  /\ (ui (step (Change_bio v) s) =
        with_formData (mkFormData (fd_name f) (fd_age f) (fd_profession f) v)
          (ui s)
      /\ world (step (Change_bio v) s) = world s).
Proof. destruct s. repeat split; reflexivity. Qed.

(** X14. Of two profiles written one after the other from the same
    session only the later one remains: after the first form is mined,
    the four fields are typed anew and the second form is mined, the own
    profile and the contract row of the account both hold the second
    record, and the form is empty again. *)
Theorem later_submit_wins
    `{Ethers} (s : Sys) (c : Contract) (sg : JsonRpcSigner)
    (name2 age2 profession2 bio2 : jsstring) (n2 : Z) :
  contract (ui s) = Some c ->
  signer (ui s) = Some sg ->
  signer_address (contract_runner c) = account (ui s) ->
  validForm (formData (ui s)) = true ->
  validForm (mkFormData name2 age2 profession2 bio2) = true ->
  parseInt age2 = Some n2 ->
  tx_fate (world s) = TxMined ->
  read_fault (world s) = None ->
  let s' := run [ Submit_addUserInfo;
                  Change_name name2; Change_age age2;
                  Change_profession profession2; Change_bio bio2;
                  Submit_addUserInfo ] s in
  currentUserData (ui s') =
    Some (mkUserData (sanitize name2) n2 (sanitize profession2)
            (sanitize bio2))
  /\ sol_getUserInfo (account (ui s)) (users (world s')) =
       mkUser (sanitize name2) n2 (sanitize profession2) (sanitize bio2)
  /\ formData (ui s') = emptyForm.
Proof.
  intros Hc Hs Ha Hv1 Hv2 Hage2 Htx Hrf. cbn zeta.
  cbn [run fold_left].
  destruct (validForm_parts _ Hv1) as (n1 & Hage1 & _).
  destruct (submit_mined_result s c sg n1 Hc Hs Ha Hv1 Hage1 Htx Hrf)
    as (Hu1 & Hw1 & _).
  change (step Submit_addUserInfo s) with (handle addUserInfo s).
  set (s1 := handle addUserInfo s) in *.
  destruct (step_Change_form s1 name2) as ((Hu2 & Hw2) & _).
  set (s2 := step (Change_name name2) s1) in *.
  destruct (step_Change_form s2 age2) as (_ & (Hu3 & Hw3) & _).
  set (s3 := step (Change_age age2) s2) in *.
  destruct (step_Change_form s3 profession2) as (_ & _ & (Hu4 & Hw4) & _).
  set (s4 := step (Change_profession profession2) s3) in *.
  destruct (step_Change_form s4 bio2) as (_ & _ & _ & (Hu5 & Hw5)).
  set (s5 := step (Change_bio bio2) s4) in *.
  assert (Hui : ui s5 =
            with_formData (mkFormData name2 age2 profession2 bio2) (ui s1)).
  { rewrite Hu5, Hu4, Hu3, Hu2, Hu1. reflexivity. }
  assert (Hwd : world s5 = world s1).
  { rewrite Hw5, Hw4, Hw3, Hw2. reflexivity. }
  change (step Submit_addUserInfo s5) with (handle addUserInfo s5).
  destruct (submit_mined_result s5 c sg n2) as (Hu6 & Hw6 & _).
  - rewrite Hui, Hu1. exact Hc.
  - rewrite Hui, Hu1. exact Hs.
  - rewrite Hui, Hu1. exact Ha.
  - rewrite Hui. exact Hv2.
  - rewrite Hui. exact Hage2.
  - rewrite Hwd, Hw1. exact Htx.
  - rewrite Hwd, Hw1. exact Hrf.
  - rewrite Hu6, Hw6, Hui, Hu1. cbn.
    repeat split. apply sol_getUserInfo_added.
Qed.

Lemma later_submit_wins_witness :
  let s' := @run shapeEthers
              [ Submit_addUserInfo;
                Change_name (lit "Ada Lovelace"); Change_age (lit "37");
                Change_profession (lit "Mathematician");
                Change_bio (lit "Notes on the Analytical Engine");
                Submit_addUserInfo ] aliceTyped in
  currentUserData (ui s') =
    Some (mkUserData (lit "Ada Lovelace") 37 (lit "Mathematician")
            (lit "Notes on the Analytical Engine"))
  /\ formData (ui s') = emptyForm.
Proof.
  destruct (@later_submit_wins shapeEthers aliceTyped aliceContract
              (mkSigner aliceAccount) (lit "Ada Lovelace") (lit "37")
              (lit "Mathematician") (lit "Notes on the Analytical Engine") 37
              eq_refl eq_refl eq_refl eq_refl eq_refl eq_refl eq_refl eq_refl)
    as (H1 & _ & H3).
  split; [exact H1 | exact H3].
Defined.

(** The own profile after a connection that is granted and read. *)
Lemma connect_read_result
    (s : Sys) (a : jsstring) (rest : list jsstring) :
  ethereum (world s) = true ->
  wallet_accounts (world s) = inr (a, rest) ->
  signer_fault (world s) = None ->
  read_fault (world s) = None ->
  currentUserData (ui (handle connectWallet s)) =
    toUserData (sol_getUserInfo a (users (world s)))
  /\ account (ui (handle connectWallet s)) = a
  /\ formData (ui (handle connectWallet s)) = formData (ui s)
  /\ searchedUserData (ui (handle connectWallet s)) =
       searchedUserData (ui s).
Proof.
  intros He Hw Hs Hr. open_page s.
  unfold handle, connectWallet. mstep.
  destruct eth; [| discriminate He]. mstep.
  destruct wacc as [err | [a' l]]; [discriminate Hw |].
  injection Hw as -> ->. mstep.
  destruct sflt; [discriminate Hs |]. mstep.
  destruct rflt; [discriminate Hr |]. mstep.
  destruct (toUserData _); mstep; repeat split; reflexivity.
Qed.

(** X15. A written profile outlives the session: after a valid form is
    mined, disconnecting and connecting again with the same wallet shows
    the sanitized record as own profile, with an empty form and no
    search result. *)
Theorem profile_survives_reconnect
    `{Ethers} (s : Sys) (c : Contract) (sg : JsonRpcSigner) (n : Z)
    (rest : list jsstring) :
  contract (ui s) = Some c ->
  signer (ui s) = Some sg ->
  signer_address (contract_runner c) = account (ui s) ->
  validForm (formData (ui s)) = true ->
  parseInt (fd_age (formData (ui s))) = Some n ->
  tx_fate (world s) = TxMined ->
  read_fault (world s) = None ->
  ethereum (world s) = true ->
  wallet_accounts (world s) = inr (account (ui s), rest) ->
  signer_fault (world s) = None ->
  let f := formData (ui s) in
  let s' := run [ Submit_addUserInfo; Click_disconnectWallet;
                  Click_connectWallet ] s in
  currentUserData (ui s') =
    Some (mkUserData (sanitize (fd_name f)) n (sanitize (fd_profession f))
            (sanitize (fd_bio f)))
  /\ account (ui s') = account (ui s)
  /\ formData (ui s') = emptyForm
  /\ searchedUserData (ui s') = None.
Proof.
  intros Hc Hs Ha Hv Hage Htx Hrf Heth Hwa Hsf. cbn zeta.
  cbn [run fold_left].
  destruct (submit_mined_result s c sg n Hc Hs Ha Hv Hage Htx Hrf)
    as (Hu1 & Hw1 & _).
  change (step Submit_addUserInfo s) with (handle addUserInfo s).
  set (s1 := handle addUserInfo s) in *.
  assert (Hd : ui (step Click_disconnectWallet s1) =
                 with_loading (loading (ui s1))
                   (with_success (lit "Wallet disconnected successfully!")
                      initialState)
               /\ world (step Click_disconnectWallet s1) = world s1).
  { clearbody s1. destruct s1 as [u1 w1 c1 t1]. split; reflexivity. }
  destruct Hd as (Hu2 & Hw2).
  set (s2 := step Click_disconnectWallet s1) in *.
  change (step Click_connectWallet s2) with (handle connectWallet s2).
  destruct (connect_read_result s2 (account (ui s)) rest)
    as (Hcu & Hac & Hfd & Hsd).
  - rewrite Hw2, Hw1. exact Heth.
  - rewrite Hw2, Hw1. exact Hwa.
  - rewrite Hw2, Hw1. exact Hsf.
  - rewrite Hw2, Hw1. exact Hrf.
  - rewrite Hcu, Hac, Hfd, Hsd, Hu2, Hw2, Hw1. cbn.
    rewrite sol_getUserInfo_added, toUserData_profileView.
    destruct (validForm_parts _ Hv) as (n' & Hage' & Hrg & Hn & _).
    rewrite Hage in Hage'. injection Hage' as <-.
    unfold profileView. cbn. rewrite Hn.
    rewrite Number_of_bigint_exact by lia. repeat split; reflexivity.
Qed.

Lemma profile_survives_reconnect_witness :
  let s' := @run shapeEthers
              [ Submit_addUserInfo; Click_disconnectWallet;
                Click_connectWallet ] aliceTyped in
  currentUserData (ui s') =
    Some (mkUserData (lit "Ada") 36 (lit "Analyst")
            (lit "Wrote the first program"))
  /\ formData (ui s') = emptyForm.
Proof.
  destruct (@profile_survives_reconnect shapeEthers aliceTyped aliceContract
              (mkSigner aliceAccount) 36 []
              eq_refl eq_refl eq_refl eq_refl eq_refl eq_refl eq_refl eq_refl
              eq_refl eq_refl)
    as (H1 & _ & H3 & _).
  split; [exact H1 | exact H3].
Defined.

(** ** Sanitation *)

Lemma removeZeroWidth_empty_iff (s : jsstring) :
  removeZeroWidth s = [] <-> Forall (fun c => isZeroWidth c = true) s.
Proof.
  unfold removeZeroWidth.
  induction s as [| c r IH]; cbn [List.filter].
  - split; [constructor | reflexivity].
  - destruct (isZeroWidth c) eqn:Hc; cbn [negb].
    + rewrite IH. split.
      * intros Hr. constructor; assumption.
      * intros Hr. inversion Hr; assumption.
    + split; [discriminate |].
      intros Hr. inversion Hr; congruence.
Qed.

(** X16. What the form's emptiness checks look at: a field is turned down
    as empty exactly when, once the white space at its two ends is
    trimmed, nothing but zero-width code units is left; and whatever
    passes holds no zero-width code unit. *)
Theorem sanitize_empty_iff (s : jsstring) :
  (isEmpty (sanitize s) = true <->
   Forall (fun c => isZeroWidth c = true) (trim s))
  /\ Forall (fun c => isZeroWidth c = false) (sanitize s).
Proof.
  split; [| apply sanitize_clean].
  unfold sanitize. rewrite <- removeZeroWidth_empty_iff.
  destruct (removeZeroWidth (trim s)); cbn; split;
    first [reflexivity | discriminate].
Qed.

(** * What is sent, what is shown, and requests in flight *)

Lemma trimStart_split (s : jsstring) :
  exists ws, s = ws ++ trimStart s /\ Forall (fun c => isWhiteSpace c = true) ws.
Proof.
  induction s as [| c r IH]; cbn [trimStart].
  - exists []. split; [reflexivity | constructor].
  - destruct (isWhiteSpace c) eqn:Hc.
    + destruct IH as (ws & Hr & Hws). exists (c :: ws). split.
      * cbn. rewrite <- Hr. reflexivity.
      * constructor; assumption.
    + exists []. split; [reflexivity | constructor].
Qed.

Lemma trim_trimmedOf (s : jsstring) : trimmedOf s (trim s).
Proof.
  destruct (trimStart_split s) as (ws1 & Hs & Hws1).
  destruct (trimStart_split (rev (trimStart s))) as (ws2 & Hr & Hws2).
  exists ws1, (rev ws2). split; [| split; [exact Hws1 | split; [| split]]].
  - unfold trim, trimEnd. rewrite <- rev_app_distr, <- Hr, rev_involutive.
    exact Hs.
  - apply List.Forall_rev, Hws2.
  - intros a m. apply trim_head.
  - intros m b. apply trim_last.
Qed.

Lemma isZeroWidth_class (c : N) : isZeroWidth c = true <-> zeroWidthClass c.
Proof.
  unfold isZeroWidth, zeroWidthClass.
  rewrite orb_true_iff, andb_true_iff, !N.leb_le, N.eqb_eq. lia.
Qed.

Lemma removeZeroWidth_strippedOf (l : jsstring) :
  strippedOf l (removeZeroWidth l).
Proof.
  unfold removeZeroWidth.
  induction l as [| c r IH]; cbn [List.filter]; [constructor |].
  destruct (isZeroWidth c) eqn:Hc; cbn [negb].
  - apply stripped_drop; [apply isZeroWidth_class, Hc | exact IH].
  - apply stripped_keep; [| exact IH].
    rewrite <- isZeroWidth_class, Hc. discriminate.
Qed.

Lemma sanitize_sanitizedAs (s : jsstring) : sanitizedAs s (sanitize s).
Proof.
  exists (trim s). split; [apply trim_trimmedOf |].
  apply removeZeroWidth_strippedOf.
Qed.

Lemma startsWith_spec (needle s : jsstring) :
  startsWith needle s = true <-> exists post, s = needle ++ post.
Proof.
  revert s. induction needle as [| a needle IH]; intros s; cbn [startsWith].
  - split; [intros _; exists s; reflexivity | reflexivity].
  - destruct s as [| b s].
    + split; [discriminate | intros (post & Hp); discriminate Hp].
    + rewrite andb_true_iff, N.eqb_eq, IH. split.
      * intros (-> & post & ->). exists post. reflexivity.
      * intros (post & [= -> ->]). split; [reflexivity | eauto].
Qed.

Lemma includes_spec (s needle : jsstring) :
  includes s needle = true <-> hasSubstring s needle.
Proof.
  unfold hasSubstring. induction s as [| a s IH]; cbn [includes].
  - rewrite orb_false_r, startsWith_spec. split.
    + intros (post & Hp). exists [], post. exact Hp.
    + intros (pre & post & Hp). destruct pre; [eauto |]. discriminate Hp.
  - rewrite orb_true_iff, startsWith_spec, IH. split.
    + intros [(post & Hp) | (pre & post & Hp)].
      * exists [], post. exact Hp.
      * exists (a :: pre), post. cbn. rewrite Hp. reflexivity.
    + intros (pre & post & Hp). destruct pre as [| b pre].
      * left. eauto.
      * right. injection Hp as _ Hp. eauto.
Qed.

Lemma message_includes_spec (err : JsError) (k : string) :
  message_includes err k = true <-> messageHas err k.
Proof.
  unfold message_includes, messageHas.
  destruct (err_message err) as [m|].
  - rewrite includes_spec. split.
    + intros Hm. eauto.
    + intros (m' & [= <-] & Hm). exact Hm.
  - split; [discriminate | intros (m & Hm & _); discriminate Hm].
Qed.

Lemma code_is_spec (err : JsError) (k : string) :
  code_is err k = true <-> err_code err = Some (lit k).
Proof. unfold code_is. apply bool_decide_eq_true. Qed.

(** C1 (as the code has it). A valid form whose transaction is mined:
    the contract is called with the parsed age and, for the name, the
    profession and the bio, with the field trimmed of the white space at
    its two ends and then rid of the code units U+200B, U+200C, U+200D
    and U+FEFF, nothing else; the transaction is awaited, the caller's
    own account is read next, and the profile shown is the record just
    written (nothing is shown if that read is refused). *)
Theorem C1_submit_sends_sanitized_values
    (s : Sys) (c : Contract) (sg : JsonRpcSigner) (n : Z) :
  contract (ui s) = Some c ->
  signer (ui s) = Some sg ->
  signer_address (contract_runner c) = account (ui s) ->
  isEmpty (sanitize (fd_name (formData (ui s)))) = false ->
  isEmpty (sanitize (fd_profession (formData (ui s)))) = false ->
  isEmpty (sanitize (fd_bio (formData (ui s)))) = false ->
  parseInt (fd_age (formData (ui s))) = Some n ->
  (1 <= n <= 150)%Z ->
  tx_fate (world s) = TxMined ->
  let s' := handle addUserInfo s in
  exists name profession bio,
    sanitizedAs (fd_name (formData (ui s))) name
    /\ sanitizedAs (fd_profession (formData (ui s))) profession
    /\ sanitizedAs (fd_bio (formData (ui s))) bio
    /\ calls s' =
         calls s ++ [ Call_addUserInfo (account (ui s)) name n profession bio;
                      Call_wait;
                      Call_getUserInfo (account (ui s)) ]
    /\ users (world s') =
         <[account (ui s) := mkUser name n profession bio]> (users (world s))
    /\ currentUserData (ui s') =
         match read_fault (world s) with
         | None => Some (mkUserData name n profession bio)
         | Some _ => None
         end
    /\ success (ui s') = lit "User information added successfully!"
    /\ error (ui s') = []
    /\ formData (ui s') = emptyForm.
Proof.
  intros Hc Hs Ha Hn Hp Hb Hage Hr Htx. cbn zeta.
  exists (sanitize (fd_name (formData (ui s)))),
    (sanitize (fd_profession (formData (ui s)))),
    (sanitize (fd_bio (formData (ui s)))).
  split; [apply sanitize_sanitizedAs |].
  split; [apply sanitize_sanitizedAs |].
  split; [apply sanitize_sanitizedAs |].
  open_page s. subst.
  unfold handle, addUserInfo. cbn. rewrite Hn, Hp, Hb, Hage.
  replace ((n <=? 0)%Z || (150 <? n)%Z) with false by lia.
  mstep. destruct rflt as [e|]; mstep.
  - repeat split; try reflexivity. now rewrite <- !app_assoc.
  - rewrite sol_getUserInfo_added, toUserData_profileView.
    unfold profileView; cbn. rewrite Hn. cbn.
    rewrite Number_of_bigint_exact by lia.
    repeat split; try reflexivity. now rewrite <- !app_assoc.
Qed.

Lemma C1_witness :
  exists name profession bio,
    sanitizedAs (0x20 :: lit "Ada" ++ [0x200B]) name
    /\ calls (handle addUserInfo aliceTyped) =
         calls aliceTyped ++
         [ Call_addUserInfo aliceAccount name 36 profession bio;
           Call_wait;
           Call_getUserInfo aliceAccount ]
    /\ currentUserData (ui (handle addUserInfo aliceTyped)) =
         Some (mkUserData name 36 profession bio).
Proof.
  destruct (C1_submit_sends_sanitized_values aliceTyped aliceContract
              (mkSigner aliceAccount) 36 eq_refl eq_refl eq_refl eq_refl
              eq_refl eq_refl eq_refl (conj (Zle_bool_imp_le 1 36 eq_refl)
                                         (Zle_bool_imp_le 36 150 eq_refl))
              eq_refl)
    as (name & profession & bio & H1 & _ & _ & H4 & _ & H6 & _).
  exists name, profession, bio.
  split; [exact H1 | split; [exact H4 | exact H6]].
Defined.

(** C1, as stated, fails on a name that is not clean after the page's
    sanitation: a space shielded by a zero-width space survives the
    trim, and the word joiner U+2060, an invisible code point, is not in
    the class the page deletes.  The value sent starts with a space and
    ends with U+2060. *)
Lemma C1_counterexample :
  fd_name (formData (ui aliceShielded)) =
    [0x200B; 0x20] ++ lit "Ada" ++ [0x2060]
  /\ validForm (formData (ui aliceShielded)) = true
  /\ calls (handle addUserInfo aliceShielded) =
       calls aliceShielded ++
       [ Call_addUserInfo aliceAccount (0x20 :: lit "Ada" ++ [0x2060]) 36
           (lit "Analyst") (lit "Wrote the first program");
         Call_wait;
         Call_getUserInfo aliceAccount ]
  /\ isWhiteSpace 0x20 = true
  /\ trim (0x20 :: lit "Ada" ++ [0x2060]) <> 0x20 :: lit "Ada" ++ [0x2060].
Proof. vm_compute. repeat split; try reflexivity. discriminate. Qed.

(** C5. A valid form whose transaction fails, when it is sent or while
    it is awaited.  Nothing is committed: only the error text and the
    loading flag (back to false) may differ from before, so the form,
    both profiles, the success text and the session keep their values.
    The error text, never empty, is chosen by the fault: the invalid
    input text for the code INVALID_ARGUMENT; else the transaction
    failed text for the code UNPREDICTABLE_GAS_LIMIT; else the rejected
    text when "user rejected" occurs in the message; else the funds text
    when "insufficient funds" occurs in it; else "Failed to add user
    info: " followed by the reason, or the message, or "Unknown error". *)
Theorem C5_failed_submit_commits_nothing
    (s : Sys) (c : Contract) (sg : JsonRpcSigner) (err : JsError) :
  contract (ui s) = Some c ->
  signer (ui s) = Some sg ->
  validForm (formData (ui s)) = true ->
  tx_fate (world s) = TxSendRejects err \/
  (exists ran, tx_fate (world s) = TxWaitRejects err ran) ->
  let s' := handle addUserInfo s in
  let invalid := err_code err = Some (lit "INVALID_ARGUMENT") in
  let gas := err_code err = Some (lit "UNPREDICTABLE_GAS_LIMIT") in
  let rejected := messageHas err "user rejected" in
  let funds := messageHas err "insufficient funds" in
  (ui s' = with_error (error (ui s')) (with_loading false (ui s))
   /\ error (ui s') <> []
   /\ formData (ui s') = formData (ui s)
   /\ currentUserData (ui s') = currentUserData (ui s)
   /\ searchedUserData (ui s') = searchedUserData (ui s)
   /\ success (ui s') = success (ui s))
  /\ (invalid ->
      error (ui s') =
      lit "Invalid input data. Please check your entries and try again.")
  /\ (~ invalid -> gas ->
      error (ui s') =
      lit "Transaction failed. Please check your inputs and try again.")
  /\ (~ invalid -> ~ gas -> rejected ->
      error (ui s') = lit "Transaction was rejected by user")
  /\ (~ invalid -> ~ gas -> ~ rejected -> funds ->
      error (ui s') = lit "Insufficient funds to complete the transaction")
  /\ (~ invalid -> ~ gas -> ~ rejected -> ~ funds ->
      error (ui s') =
      lit "Failed to add user info: " ++
      match err_reason err, err_message err with
      | Some (a :: r), _ => a :: r
      | _, Some (a :: m) => a :: m
      | _, _ => lit "Unknown error"
      end).
Proof.
  intros Hc Hs Hv Htx. cbn zeta.
  destruct (validForm_parts _ Hv) as (n & Hage & Hr & Hn & Hp & Hb).
  assert (Herr : ui (handle addUserInfo s) =
                 with_error (faultMessage err) (with_loading false (ui s))).
  { open_page s. subst.
    unfold handle, addUserInfo. cbn. rewrite Hn, Hp, Hb, Hage.
    replace ((n <=? 0)%Z || (150 <? n)%Z) with false by lia.
    destruct Htx as [-> | [[|] ->]]; mstep; rewrite addUserInfo_catch_eq;
      mstep; reflexivity. }
  rewrite Herr. clear Hc Hs Hv Htx Hage Hr Hn Hp Hb.
  destruct (ui s) as [acc ctr prov sgn ld er su fd cud sadr sud]. cbn.
  unfold faultMessage.
  rewrite <- !code_is_spec, <- !message_includes_spec.
  destruct (code_is err "INVALID_ARGUMENT");
    [repeat split; first [discriminate | congruence | reflexivity] |].
  destruct (code_is err "UNPREDICTABLE_GAS_LIMIT");
    [repeat split; first [discriminate | congruence | reflexivity] |].
  destruct (message_includes err "user rejected");
    [repeat split; first [discriminate | congruence | reflexivity] |].
  destruct (message_includes err "insufficient funds");
    [repeat split; first [discriminate | congruence | reflexivity] |].
  unfold js_or.
  destruct (err_reason err) as [[| a r] |], (err_message err) as [[| b m] |];
    repeat split; first [discriminate | congruence | reflexivity].
Qed.

Lemma C5_witness :
  let s := with_world
             (fun w => mkWorld (ethereum w) (wallet_accounts w)
                         (signer_fault w) (users w)
                         (TxSendRejects userRejected) (read_fault w))
             aliceTyped in
  error (ui (handle addUserInfo s)) = lit "Transaction was rejected by user"
  /\ formData (ui (handle addUserInfo s)) = formData (ui s)
  /\ currentUserData (ui (handle addUserInfo s)) = currentUserData (ui s).
Proof.
  destruct (C5_failed_submit_commits_nothing
              (with_world
                 (fun w => mkWorld (ethereum w) (wallet_accounts w)
                             (signer_fault w) (users w)
                             (TxSendRejects userRejected) (read_fault w))
                 aliceTyped)
              aliceContract (mkSigner aliceAccount) userRejected
              eq_refl eq_refl eq_refl (or_introl eq_refl))
    as ((_ & _ & H3 & H4 & _) & _ & _ & H8 & _).
  split; [| split; [exact H3 | exact H4]].
  apply H8.
  - discriminate.
  - discriminate.
  - exists (lit "user rejected action"). split; [reflexivity |].
    exists [], (lit " action"). reflexivity.
Defined.

(** Run without another event in between, the two halves of a search are
    the handler. *)
Lemma searchUser_split `{Ethers} (s : Sys) (c : Contract) :
  contract (ui s) = Some c ->
  isEmpty (searchAddress (ui s)) = false ->
  isAddress (searchAddress (ui s)) = true ->
  fst (searchUser (ui s) s) =
  fst (searchUser_resumed (readReply (world s) (searchAddress (ui s)))
         (fst (searchUser_sent (ui s) s))).
Proof.
  intros Hc Hne Hok. open_page s. subst.
  unfold searchUser, loadUserData, searchUser_sent, searchUser_resumed,
    readReply. cbn. rewrite Hne, Hok. cbn.
  mstep. destruct rflt; mstep; [reflexivity |].
  destruct (toUserData _); mstep; reflexivity.
Qed.

(** C3. On every page the user can reach, a click on Search (the button
    is there and enabled: panels rendered, not loading, search box not
    empty) with a malformed address in the box shows the invalid-address
    text; nothing is sent, the world is as before and every other cell
    keeps its value. *)
Theorem C3_search_rejects_malformed_address
    `{Ethers} (w : World) (es : list Event) :
  let s := run es (initialSys w) in
  searchClickable (ui s) = true ->
  isAddress (searchAddress (ui s)) = false ->
  let s' := step Click_searchUser s in
  error (ui s') = lit "Please enter a valid Ethereum address"
  /\ calls s' = calls s
  /\ world s' = world s
  /\ ui s' = with_error (error (ui s')) (ui s).
Proof.
  cbn zeta. intros Hclick Hbad.
  destruct (run_pageInv es _ (initial_pageInv w)) as (Hs & _).
  revert Hclick Hbad Hs. generalize (run es (initialSys w)).
  intros s Hclick Hbad Hs.
  cbn [step]. open_page s.
  unfold searchClickable, rendersPanels, truthy, sessionInv in *. cbn in *.
  destruct ctr as [c|].
  2:{ destruct Hs as (_ & _ & -> & _). discriminate Hclick. }
  destruct ld; [rewrite andb_false_r in Hclick; discriminate Hclick |].
  destruct (isEmpty sadr) eqn:Hne;
    [rewrite andb_false_r in Hclick; discriminate Hclick |].
  unfold handle, searchUser. cbn. rewrite Hne, Hbad. cbn. mstep.
  repeat split; reflexivity.
Qed.

Lemma C3_witness :
  let s := @run shapeEthers
             [Click_connectWallet; Change_searchAddress (lit "0x123")]
             (initialSys aliceWorld) in
  error (ui (@step shapeEthers Click_searchUser s)) =
    lit "Please enter a valid Ethereum address"
  /\ calls (@step shapeEthers Click_searchUser s) = calls s.
Proof.
  destruct (@C3_search_rejects_malformed_address shapeEthers aliceWorld
              [Click_connectWallet; Change_searchAddress (lit "0x123")]
              eq_refl eq_refl) as (H1 & H2 & _).
  split; [exact H1 | exact H2].
Defined.

(** C8, as stated, fails for the error state: the page has one error
    cell.  Alice searches for a malformed address, which shows the
    invalid-address text; she then submits her form, and the refresh of
    her own profile comes with an empty error cell: the text the search
    had shown is gone. *)
Lemma C8_counterexample :
  let s := @run shapeEthers
             [Change_searchAddress (lit "0x123"); Click_searchUser]
             aliceTyped in
  let s' := @step shapeEthers Submit_addUserInfo s in
  error (ui s) = lit "Please enter a valid Ethereum address"
  /\ clock (timers s') = clock (timers s)
  /\ currentUserData (ui s') =
       Some (mkUserData (lit "Ada") 36 (lit "Analyst")
               (lit "Wrote the first program"))
  /\ error (ui s') = []
  /\ error (ui s') <> error (ui s).
Proof. vm_compute. repeat split; try reflexivity. discriminate. Qed.

